(** * Video editor backend: upload and render handlers of [main.py]

    A shallow embedding of the two request handlers that carry the design
    decisions of the backend, [upload_asset] and [render_video], together
    with the collaborators they call.

    Conventions of the embedding.
    - Python [float] request fields are rationals ([Q]): every finite double
      is a rational, and the handlers only compare such values, test them
      for truthiness and take [max]/[min], all of which are exact.
      [Qmax a b] returns [b] exactly when [a < b] and [Qmin a b] returns [b]
      exactly when [b < a], which is how Python's two-argument [max] and
      [min] pick their result.  The request model also accepts NaN and the
      infinities; the trim, the one place where they change what is
      computed, is given a second time over all float values
      ([trim_float]) and shown to agree with [resolve_trim] on finite ones.
    - A handler is a function from the server state (metadata store and
      file system) to a response and a new state.  [HTTPException] is the
      [HTTPError] response; exceptions of the media engine are [Raised].
    - [moviepy] is an external engine.  A clip is kept symbolically, as the
      source path and the effects applied to it so far; whether a call
      raises, whether a clip carries audio and whether encoding succeeds
      are read from an [engine] record, so every theorem quantified over
      [engine] holds whatever the engine does. *)

From Stdlib Require Import QArith Qminmax Sorted.
From stdpp Require Import gmap strings list pretty.

Local Open Scope string_scope.

(** ** Python values and documents *)

Inductive value :=
  | VNone
  | VStr (s : string)
  | VInt (z : Z)
  | VFloat (q : Q)
  | VOid (hex : string).

Definition value_eqb (a b : value) : bool :=
  match a, b with
  | VNone, VNone => true
  | VStr s, VStr t => String.eqb s t
  | VInt x, VInt y => Z.eqb x y
  | VFloat x, VFloat y => Qeq_bool x y
  | VOid s, VOid t => String.eqb s t
  | _, _ => false
  end.

Definition opt_int (o : option Z) : value :=
  match o with Some z => VInt z | None => VNone end.
Definition opt_float (o : option Q) : value :=
  match o with Some q => VFloat q | None => VNone end.

(** A stored record: the identifier the store generated for it, as the
    string [str(d["_id"])], and the fields the caller inserted. *)
Record document := Document {
  doc_id : string;
  doc_fields : gmap string value
}.

(** ** Metadata store (the [database] module that main.py imports) *)

Inductive cond :=
  | CEq (v : value)
  | CExists (b : bool).

Record database := Database {
  db_colls : gmap string (list document);
  db_counter : nat
}.

Definition doc_field (d : document) (k : string) : option value :=
  if String.eqb k "_id" then Some (VOid (doc_id d)) else doc_fields d !! k.

Definition cond_holds (d : document) (kc : string * cond) : bool :=
  match kc.2 with
  | CEq v => match doc_field d kc.1 with
             | Some u => value_eqb u v
             | None => false
             end
  | CExists b => Bool.eqb (bool_decide (is_Some (doc_field d kc.1))) b
  end.

Definition matches (q : list (string * cond)) (d : document) : bool :=
  forallb (cond_holds d) q.

Definition collection (db : database) (name : string) : list document :=
  default [] (db_colls db !! name).

(** Modelled from the spec: [get_documents] of the absent [database]
    module.  "getDocuments(collectionName, filter?) -> list<record>; each
    record includes an opaque identifier field."  The records of the
    collection that satisfy every entry of the filter, in insertion
    order. *)
Definition get_documents (db : database) (name : string)
    (q : list (string * cond)) : list document :=
  List.filter (matches q) (collection db name).

(** Modelled from the spec: the identifier generator behind
    [create_document] of the absent [database] module; identifiers are
    opaque strings. *)
Definition gen_id (n : nat) : string := pretty n.

(** Modelled from the spec: [create_document] of the absent [database]
    module.  "createDocument(collectionName, fields) -> id; inserts and
    returns a generated identifier; never updates." *)
Definition create_document (db : database) (name : string)
    (fields : gmap string value) : string * database :=
  let id := gen_id (db_counter db) in
  (id,
   {| db_colls := <[name := (collection db name ++ [Document id fields])%list]> (db_colls db);
      db_counter := S (db_counter db) |}).

(** ** Server state and responses *)

Record world := World {
  w_db : database;
  w_fs : gset string          (* the paths [os.path.exists] answers True for,
                                 among those the handlers name *)
}.

Inductive response (A : Type) :=
  | Ok (a : A)
  | HTTPError (status : Z) (detail : string).
Arguments Ok {A} a.
Arguments HTTPError {A} status detail.

(** Result of a call into the media engine. *)
Inductive outcome (A : Type) :=
  | Done (a : A)
  | Raised (msg : string).
Arguments Done {A} a.
Arguments Raised {A} msg.

Definition obind {A B} (x : outcome A) (f : A -> outcome B) : outcome B :=
  match x with
  | Done a => f a
  | Raised m => Raised m
  end.

#[global] Instance outcome_bind : MBind outcome := fun A B f x => obind x f.
#[global] Instance outcome_ret : MRet outcome := fun A a => Done a.

(** ** The media engine *)

Inductive fx :=
  | Subclip (t_start t_end : Q)
  | Speedx (factor : Q)
  | Rotate (deg : Z)
  | Volumex (factor : Q)
  | Resize (width height : Z).

Record clip := Clip {
  clip_path : string;
  clip_fx : list fx
}.

Record video_info := VideoInfo {
  vi_duration : Q;
  vi_w : Z;
  vi_h : Z
}.

Inductive write_result :=
  | WOk
  | WRaised (msg : string) (partial : bool).

Record engine := Engine {
  eng_open : string -> outcome video_info;       (* VideoFileClip(path) *)
  eng_fx_raises : clip -> fx -> option string;   (* an effect raising *)
  eng_audio : clip -> bool;                      (* clip.audio is not None *)
  eng_write : clip -> string -> write_result     (* write_videofile *)
}.

Definition apply_fx (eng : engine) (c : clip) (f : fx) : outcome clip :=
  match eng_fx_raises eng c f with
  | Some msg => Raised msg
  | None => Done {| clip_path := clip_path c; clip_fx := (clip_fx c ++ [f])%list |}
  end.

(** ** Small string helpers *)

(** [s.rstrip("/")] *)
Fixpoint rstrip_slash (s : string) : string :=
  match s with
  | EmptyString => EmptyString
  | String a s' =>
      match rstrip_slash s' with
      | EmptyString => if Ascii.eqb a (Ascii.ascii_of_nat 47) then EmptyString else String a EmptyString
      | t => String a t
      end
  end.

(** [s.startswith(p)] *)
Definition startswith (s p : string) : bool := String.prefix p s.

Definition UPLOAD_DIR : string := "static/uploads".
Definition OUTPUT_DIR : string := "static/outputs".

(** [os.path.join(dir, name)] for a relative, non-empty [name]. *)
Definition path_join (dir name : string) : string := dir ++ "/" ++ name.

(** ** Request models *)

Record RenderRequest := mkRenderRequest {
  project_id : string;
  asset_id : string;
  start : Q;                        (* default 0.0 *)
  end_ : option Q;                  (* default None *)
  speed : Q;                        (* default 1.0 *)
  volume : Q;                       (* default 1.0 *)
  rotate : Z;                       (* default 0 *)
  resolution_width : option Z;
  resolution_height : option Z
}.

Record UploadFile := mkUploadFile {
  content_type : option string;
  filename : string
}.

(** Truthiness of a float: [x] is falsy exactly when it equals 0.0. *)
Definition truthy (q : Q) : bool := negb (Qeq_bool q 0).

(** ** Asset upload (main.py, lines 120-182) *)

Inductive asset_kind := KVideo | KAudio | KImage | KOther.

Definition kind_name (k : asset_kind) : string :=
  match k with
  | KVideo => "video"
  | KAudio => "audio"
  | KImage => "image"
  | KOther => "other"
  end.

Definition classify (ct : string) : asset_kind :=
  if startswith ct "video/" then KVideo
  else if startswith ct "audio/" then KAudio
  else if startswith ct "image/" then KImage
  else KOther.

(** The best-effort probe of lines 141-157: the three fields stay [None]
    unless the engine is loaded, the upload is a video and the clip opens.
    The handles closed afterwards may raise as well; by then the three
    variables are assigned and the [except] clause only passes. *)
Definition probe (VideoFileClip : option engine) (kind : asset_kind)
    (save_path : string) : option Q * option Z * option Z :=
  match kind, VideoFileClip with
  | KVideo, Some eng =>
      match eng_open eng save_path with
      | Done vi =>
          (if truthy (vi_duration vi) then Some (vi_duration vi) else None,
           Some (vi_w vi), Some (vi_h vi))
      | Raised _ => (None, None, None)
      end
  | _, _ => (None, None, None)
  end.

Definition asset_doc_of (pid : string) (file : UploadFile) (save_path public_url : string)
    (kind : asset_kind) (info : option Q * option Z * option Z) : gmap string value :=
  <["project_id" := VStr pid]> (
  <["filename" := VStr (filename file)]> (
  <["path" := VStr save_path]> (
  <["url" := VStr public_url]> (
  <["kind" := VStr (kind_name kind)]> (
  <["duration" := opt_float info.1.1]> (
  <["width" := opt_int info.1.2]> (
  <["height" := opt_int info.2]> ∅))))))).

(** Lines 121-182 on the runs where writing the upload to disk
    (lines 136-138) goes through; [upload_asset_io] below is the whole
    handler, with what happens when that step raises. *)
Definition upload_asset (VideoFileClip : option engine) (w : world)
    (base_url stamp : string) (pid : string) (file : UploadFile)
    : response (gmap string value) * world :=
  match content_type file with
  | None => (HTTPError 400 "Unsupported file type", w)
  | Some ct =>
      let kind := classify ct in
      match kind with
      | KOther => (HTTPError 400 "Only video/audio/image files are supported", w)
      | _ =>
          let fname := stamp ++ "_" ++ filename file in
          let save_path := path_join UPLOAD_DIR fname in
          let fs := {[save_path]} ∪ w_fs w in
          let info := probe VideoFileClip kind save_path in
          let public_url := rstrip_slash base_url ++ "/static/uploads/" ++ fname in
          let asset_doc := asset_doc_of pid file save_path public_url kind info in
          let '(asset_id, db) := create_document (w_db w) "asset" asset_doc in
          (Ok (<["id" := VStr asset_id]> (delete "path" asset_doc)),
           {| w_db := db; w_fs := fs |})
      end
  end.

(** ** Render (main.py, lines 196-283) *)

Definition has_id (id : string) (d : document) : bool := String.eqb (doc_id d) id.

(** Lines 202-213: the first lookup and the fallback taken when it finds
    nothing. *)
Definition fetch_asset (db : database) (payload : RenderRequest) : option document :=
  let asset_docs :=
    get_documents db "asset"
      [("_id", CExists true); ("project_id", CEq (VStr (project_id payload)))] in
  match List.find (has_id (asset_id payload)) asset_docs with
  | Some d => Some d
  | None =>
      List.find (has_id (asset_id payload))
        (get_documents db "asset" [("project_id", CEq (VStr (project_id payload)))])
  end.

(** Lines 217-218 for the records this program writes: the stored path is
    usable when it is a non-empty string naming an existing file, and a
    missing, [None] or empty path is no path.  [upload_asset] only ever
    stores a string there.  For a record holding a non-zero number or an
    identifier under "path" the code goes on to [os.path.exists] on that
    value; the embedding does not follow it there and counts it as no
    path, and the statements about missing files ([no_source_file]) say on
    which stored values they hold. *)
Definition source_path_of (w : world) (d : document) : option string :=
  match doc_fields d !! "path" with
  | Some (VStr p) =>
      if negb (String.eqb p "") && bool_decide (p ∈ w_fs w) then Some p else None
  | _ => None
  end.

(** Lines 225-227. *)
Definition resolve_trim (payload : RenderRequest) (duration : Q) : Q * Q :=
  let start := Qmax 0 (if truthy (start payload) then start payload else 0) in
  let end' :=
    match end_ payload with
    | Some e => if truthy e then e else duration
    | None => duration
    end in
  let end' := Qmin end' duration in
  (start, end').

Definition rotate_map : gmap Z Z :=
  <[0%Z := 0%Z]> (<[90%Z := 90%Z]> (<[180%Z := 180%Z]> (<[270%Z := 270%Z]> ∅))).

(** Lines 224-246: the five steps of the transform chain. *)

(** Trim, lines 225-228. *)
Definition step_trim (eng : engine) (payload : RenderRequest) (duration : Q)
    (clip0 : clip) : outcome clip :=
  let '(start, end') := resolve_trim payload duration in
  apply_fx eng clip0 (Subclip start end').

(** Speed, lines 231-232. *)
Definition step_speed (eng : engine) (payload : RenderRequest)
    (subclip : clip) : outcome clip :=
  if truthy (speed payload) && negb (Qeq_bool (speed payload) 1)
  then apply_fx eng subclip (Speedx (speed payload))
  else mret subclip.

(** Rotate, lines 235-238. *)
Definition step_rotate (eng : engine) (payload : RenderRequest)
    (subclip : clip) : outcome clip :=
  let r := default 0%Z (rotate_map !! rotate payload) in
  if negb (Z.eqb r 0)
  then apply_fx eng subclip (Rotate r)
  else mret subclip.

(** Volume, lines 241-242. *)
Definition step_volume (eng : engine) (payload : RenderRequest)
    (subclip : clip) : outcome clip :=
  if eng_audio eng subclip
  then apply_fx eng subclip (Volumex (Qmax 0 (volume payload)))
  else mret subclip.

(** Resize, lines 245-246. *)
Definition step_resize (eng : engine) (payload : RenderRequest)
    (subclip : clip) : outcome clip :=
  match resolution_width payload, resolution_height payload with
  | Some width, Some height =>
      if negb (Z.eqb width 0) && negb (Z.eqb height 0)
      then apply_fx eng subclip (Resize width height)
      else mret subclip
  | _, _ => mret subclip
  end.

Definition transform_chain (eng : engine) (clip0 : clip) (duration : Q)
    (payload : RenderRequest) : outcome clip :=
  subclip ← step_trim eng payload duration clip0;
  subclip ← step_speed eng payload subclip;
  subclip ← step_rotate eng payload subclip;
  subclip ← step_volume eng payload subclip;
  step_resize eng payload subclip.

Definition render_doc_of (payload : RenderRequest) (start end' : Q)
    (output_url : string) : gmap string value :=
  <["project_id" := VStr (project_id payload)]> (
  <["asset_id" := VStr (asset_id payload)]> (
  <["start" := VFloat start]> (
  <["end" := VFloat end']> (
  <["speed" := VFloat (speed payload)]> (
  <["volume" := VFloat (volume payload)]> (
  <["rotate" := VInt (rotate payload)]> (
  <["resolution_width" := opt_int (resolution_width payload)]> (
  <["resolution_height" := opt_int (resolution_height payload)]> (
  <["status" := VStr "completed"]> (
  <["output_url" := VStr output_url]> ∅)))))))))).

(** The [except Exception] clause of line 282. *)
Definition render_failed {A} (msg : string) : response A :=
  HTTPError 500 ("Render failed: " ++ msg).

Definition out_name_of (stamp : string) : string := "render_" ++ stamp ++ ".mp4".
Definition out_path_of (stamp : string) : string := path_join OUTPUT_DIR (out_name_of stamp).

(** Lines 221-283, the body guarded by [try].  Closing the handles
    (lines 255-262) has its own [try]/[except: pass] and changes nothing
    the handler returns or stores.  Of the files the encoder touches, the
    state follows the output file only: temporary files the engine may
    leave beside it are not tracked, and no statement below bounds the
    files a render adds. *)
Definition render_try (eng : engine) (w : world) (base_url stamp : string)
    (payload : RenderRequest) (source_path : string)
    : response (gmap string value) * world :=
  match eng_open eng source_path with
  | Raised msg => (render_failed msg, w)
  | Done vi =>
      let clip0 := {| clip_path := source_path; clip_fx := [] |} in
      let '(start, end') := resolve_trim payload (vi_duration vi) in
      match transform_chain eng clip0 (vi_duration vi) payload with
      | Raised msg => (render_failed msg, w)
      | Done subclip =>
          let out_name := out_name_of stamp in
          let out_path := out_path_of stamp in
          match eng_write eng subclip out_path with
          | WRaised msg partial =>
              (render_failed msg,
               {| w_db := w_db w;
                  w_fs := if partial then {[out_path]} ∪ w_fs w else w_fs w |})
          | WOk =>
              let fs := {[out_path]} ∪ w_fs w in
              let output_url := rstrip_slash base_url ++ "/static/outputs/" ++ out_name in
              let render_doc := render_doc_of payload start end' output_url in
              let '(render_id, db) := create_document (w_db w) "render" render_doc in
              (Ok (render_doc ∪ {["id" := VStr render_id]}),
               {| w_db := db; w_fs := fs |})
          end
      end
  end.

Definition render_video (VideoFileClip : option engine) (w : world)
    (base_url stamp : string) (payload : RenderRequest)
    : response (gmap string value) * world :=
  match VideoFileClip with
  | None => (HTTPError 500 "Video processing backend not available", w)
  | Some eng =>
      match fetch_asset (w_db w) payload with
      | None => (HTTPError 404 "Asset not found", w)
      | Some asset_doc =>
          match source_path_of w asset_doc with
          | None => (HTTPError 404 "Source file not found on server", w)
          | Some source_path => render_try eng w base_url stamp payload source_path
          end
      end
  end.

(** ** Vocabulary of the statements *)

Definition http_status {A} (r : response A) : Z :=
  match r with
  | Ok _ => 200%Z
  | HTTPError s _ => s
  end.

Definition set_rotate (r : Z) (p : RenderRequest) : RenderRequest :=
  {| project_id := project_id p; asset_id := asset_id p; start := start p;
     end_ := end_ p; speed := speed p; volume := volume p; rotate := r;
     resolution_width := resolution_width p;
     resolution_height := resolution_height p |}.

Definition set_end (e : option Q) (p : RenderRequest) : RenderRequest :=
  {| project_id := project_id p; asset_id := asset_id p; start := start p;
     end_ := e; speed := speed p; volume := volume p; rotate := rotate p;
     resolution_width := resolution_width p;
     resolution_height := resolution_height p |}.

Definition clear_resolution (p : RenderRequest) : RenderRequest :=
  {| project_id := project_id p; asset_id := asset_id p; start := start p;
     end_ := end_ p; speed := speed p; volume := volume p; rotate := rotate p;
     resolution_width := None; resolution_height := None |}.

(** The records of one project, as the filter [{"project_id": pid}] selects
    them. *)
Definition in_project (pid : string) (d : document) : bool :=
  matches [("project_id", CEq (VStr pid))] d.

(** The asset lookup as the specification words it, for comparison with
    [fetch_asset]: "look up the Asset by assetId scoped to projectId first;
    if not found, fall back to an unscoped lookup by assetId alone". *)
Definition spec_fetch_asset (db : database) (payload : RenderRequest) : option document :=
  match List.find (has_id (asset_id payload))
          (get_documents db "asset" [("project_id", CEq (VStr (project_id payload)))]) with
  | Some d => Some d
  | None => List.find (has_id (asset_id payload)) (get_documents db "asset" [])
  end.

(** ** Concrete engines, states and requests used in the examples *)

Module Fixtures.

Definition info10 : video_info := {| vi_duration := 10; vi_w := 1920; vi_h := 1080 |}.

(** An engine that accepts whatever it is given. *)
Definition lenient_engine : engine :=
  {| eng_open := fun _ => Done info10;
     eng_fx_raises := fun _ _ => None;
     eng_audio := fun _ => true;
     eng_write := fun _ _ => WOk |}.


(** An engine that cannot open any file. *)
Definition blind_engine : engine :=
  {| eng_open := fun _ => Raised "could not read file";
     eng_fx_raises := fun _ _ => None;
     eng_audio := fun _ => false;
     eng_write := fun _ _ => WOk |}.

(** An engine whose encoder gives up and leaves a partial file. *)
Definition failing_encoder : engine :=
  {| eng_open := fun _ => Done info10;
     eng_fx_raises := fun _ _ => None;
     eng_audio := fun _ => true;
     eng_write := fun _ _ => WRaised "encoder crashed" true |}.

Definition clip_path1 : string := "static/uploads/20240101000000000000_clip.mp4".

Definition asset1 : document :=
  {| doc_id := "a1";
     doc_fields :=
       <["project_id" := VStr "p1"]> (
       <["filename" := VStr "clip.mp4"]> (
       <["path" := VStr clip_path1]> (
       <["kind" := VStr "video"]> ∅))) |}.

Definition db1 : database :=
  {| db_colls := {["asset" := [asset1]]}; db_counter := 1 |}.

Definition w1 : world := {| w_db := db1; w_fs := {[clip_path1]} |}.

(** The same store after the file of the asset has been removed from disk. *)
Definition w1_no_file : world := {| w_db := db1; w_fs := ∅ |}.
Definition w_empty : world :=
  {| w_db := {| db_colls := ∅; db_counter := 0 |}; w_fs := ∅ |}.

Definition req (pid aid : string) (s : Q) (e : option Q) (rot : Z)
    (rw rh : option Z) : RenderRequest :=
  {| project_id := pid; asset_id := aid; start := s; end_ := e;
     speed := 1; volume := 1; rotate := rot;
     resolution_width := rw; resolution_height := rh |}.

Definition late_start_req : RenderRequest := req "p1" "a1" 15 None 0 None None.
Definition zero_end_req : RenderRequest := req "p1" "a1" 2 (Some 0%Q) 0 None None.
Definition other_project_req : RenderRequest := req "p2" "a1" 0 None 0 None None.
Definition missing_req : RenderRequest := req "p1" "nope" 0 None 0 None None.
Definition width_only_req : RenderRequest := req "p1" "a1" 0 None 0 (Some 640%Z) None.
Definition both_sizes_req : RenderRequest :=
  req "p1" "a1" 0 None 0 (Some 640%Z) (Some 360%Z).
Definition rot45_req : RenderRequest := req "p1" "a1" 0 None 45 None None.
Definition rot90_req : RenderRequest := req "p1" "a1" 0 None 90 None None.

Definition video_file : UploadFile := mkUploadFile (Some "video/mp4") "x.mp4".
Definition pdf_file : UploadFile := mkUploadFile (Some "application/pdf") "doc.pdf".
Definition untyped_file : UploadFile := mkUploadFile None "blob".

(** The scenario of the specification: start 2, end 8, speed 2, rotate 90,
    volume 0.5 on a source of 10 seconds. *)
Definition scenario_req : RenderRequest :=
  {| project_id := "p1"; asset_id := "a1"; start := 2; end_ := Some 8%Q;
     speed := 2; volume := 1 # 2; rotate := 90;
     resolution_width := None; resolution_height := None |}.

Definition base : string := "http://localhost:8000/".
Definition stamp1 : string := "20240102030405000000".

End Fixtures.

(** ** Project endpoints and asset listing (main.py, lines 104-116, 185-192) *)

Definition opt_str (o : option string) : value :=
  match o with Some s => VStr s | None => VNone end.

(** Lines 105-108. *)
Definition create_project (w : world) (title : string) (description : option string)
    : gmap string value * world :=
  let payload := <["title" := VStr title]> (<["description" := opt_str description]> ∅) in
  let '(project_id, db) := create_document (w_db w) "project" payload in
  (<["id" := VStr project_id]> (
   <["title" := VStr title]> (
   <["description" := opt_str description]> ∅)),
   {| w_db := db; w_fs := w_fs w |}).

(** [d["id"] = str(d.pop("_id"))]: the record as a dict keyed by field, with
    the identifier under "id". *)
Definition with_id (d : document) : gmap string value :=
  <["id" := VStr (doc_id d)]> (doc_fields d).

(** Lines 112-116. *)
Definition list_projects (w : world) : list (gmap string value) :=
  List.map with_id (get_documents (w_db w) "project" []).

(** Lines 186-192. *)
Definition list_assets (w : world) (pid : string) : list (gmap string value) :=
  List.map with_id (get_documents (w_db w) "asset" [("project_id", CEq (VStr pid))]).

(** ** Health check (main.py, lines 77-100) *)

Record health := Health {
  h_backend : string;
  h_database : string;
  h_database_url : string;
  h_database_name : string;
  h_connection_status : string;
  h_collections : list string
}.

(** [os.getenv(name)] is truthy when the variable is set to a non-empty
    string. *)
Definition env_set (v : option string) : bool :=
  match v with
  | Some s => negb (String.eqb s "")
  | None => false
  end.

(** A [string] holds the UTF-8 encoding of a Python [str]; a character is
    a byte that is not a continuation byte (10xxxxxx), together with the
    continuation bytes that follow it. *)
Definition is_continuation (a : Ascii.ascii) : bool :=
  match a with
  | Ascii.Ascii _ _ _ _ _ _ b6 b7 => b7 && negb b6
  end.

(** [len(s)], in characters. *)
Fixpoint char_count (s : string) : nat :=
  match s with
  | EmptyString => 0
  | String a s' => if is_continuation a then char_count s' else S (char_count s')
  end.

(** [s[:n]]: the first [n] characters of [s], each with all its bytes. *)
Fixpoint str_take (n : nat) (s : string) : string :=
  match s with
  | EmptyString => EmptyString
  | String a s' =>
      if is_continuation a then String a (str_take n s')
      else match n with
           | O => EmptyString
           | S n' => String a (str_take n' s')
           end
  end.

(** The handle [db] is [None], or answers [list_collection_names()] with a
    list of names or by raising.  Nothing inside the outer [try] raises
    outside the inner one, so its [except] clause is never entered. *)
Definition test_database (db : option (outcome (list string)))
    (DATABASE_URL DATABASE_NAME : option string) : health :=
  let url := if env_set DATABASE_URL then "✅ Set" else "❌ Not Set" in
  let name := if env_set DATABASE_NAME then "✅ Set" else "❌ Not Set" in
  match db with
  | Some (Done names) =>
      Health "✅ Running" "✅ Connected & Working" url name "Connected" (take 10 names)
  | Some (Raised e) =>
      Health "✅ Running" ("⚠️ Connected but Error: " ++ str_take 80 e) url name
        "Connected" []
  | None =>
      Health "✅ Running" "⚠️ Available but not initialized" url name "Not Connected" []
  end.

(** ** Further vocabulary of the statements *)

(** The place of an effect in the chain. *)
Definition stage (f : fx) : nat :=
  match f with
  | Subclip _ _ => 0
  | Speedx _ => 1
  | Rotate _ => 2
  | Volumex _ => 3
  | Resize _ _ => 4
  end.

Definition is_speedx (f : fx) : bool :=
  match f with Speedx _ => true | _ => false end.

Definition is_volumex (f : fx) : bool :=
  match f with Volumex _ => true | _ => false end.

Definition asset_req (pid aid : string) (p : RenderRequest) : RenderRequest :=
  {| project_id := pid; asset_id := aid; start := start p;
     end_ := end_ p; speed := speed p; volume := volume p; rotate := rotate p;
     resolution_width := resolution_width p;
     resolution_height := resolution_height p |}.

(** The effects each step asks of the engine, as lists of at most one
    effect. *)
Definition speed_fx (payload : RenderRequest) : list fx :=
  if truthy (speed payload) && negb (Qeq_bool (speed payload) 1)
  then [Speedx (speed payload)] else [].

Definition rotate_fx (payload : RenderRequest) : list fx :=
  if negb (Z.eqb (default 0%Z (rotate_map !! rotate payload)) 0)
  then [Rotate (default 0%Z (rotate_map !! rotate payload))] else [].

Definition volume_fx (audio : bool) (payload : RenderRequest) : list fx :=
  if audio then [Volumex (Qmax 0 (volume payload))] else [].

Definition resize_fx (payload : RenderRequest) : list fx :=
  match resolution_width payload, resolution_height payload with
  | Some width, Some height =>
      if negb (Z.eqb width 0) && negb (Z.eqb height 0)
      then [Resize width height] else []
  | _, _ => []
  end.

(** Where [upload_asset] saves an upload (lines 134-135). *)
Definition save_path_of (stamp : string) (file : UploadFile) : string :=
  path_join UPLOAD_DIR (stamp ++ "_" ++ filename file).

(** ** The whole upload handler (main.py, lines 120-182) *)

(** Lines 136-138 sit outside any [try]: when [open] or [write] raises
    (no such directory for a file name with a slash, a name too long, a
    full disk), the exception leaves the handler and the framework answers
    500 "Internal Server Error".  [disk path] says what writing the upload
    to [path] does: it goes through, or it raises, leaving or not a partial
    file behind. *)
Definition upload_asset_io (disk : string -> write_result)
    (VideoFileClip : option engine) (w : world)
    (base_url stamp : string) (pid : string) (file : UploadFile)
    : response (gmap string value) * world :=
  match content_type file with
  | None => (HTTPError 400 "Unsupported file type", w)
  | Some ct =>
      let kind := classify ct in
      match kind with
      | KOther => (HTTPError 400 "Only video/audio/image files are supported", w)
      | _ =>
          let fname := stamp ++ "_" ++ filename file in
          let save_path := path_join UPLOAD_DIR fname in
          match disk save_path with
          | WRaised msg partial =>
              (HTTPError 500 "Internal Server Error",
               {| w_db := w_db w;
                  w_fs := if partial then {[save_path]} ∪ w_fs w else w_fs w |})
          | WOk =>
              let fs := {[save_path]} ∪ w_fs w in
              let info := probe VideoFileClip kind save_path in
              let public_url := rstrip_slash base_url ++ "/static/uploads/" ++ fname in
              let asset_doc := asset_doc_of pid file save_path public_url kind info in
              let '(asset_id, db) := create_document (w_db w) "asset" asset_doc in
              (Ok (<["id" := VStr asset_id]> (delete "path" asset_doc)),
               {| w_db := db; w_fs := fs |})
          end
      end
  end.

(** ** Trim over every float value (main.py, lines 225-227) *)

(** A float of the request: a finite double (as a rational), an infinity
    or NaN. *)
Inductive pyfloat :=
  | Fin (q : Q)
  | PInf
  | NInf
  | NaN.

(** [a < b]; false as soon as one side is NaN. *)
Definition flt (a b : pyfloat) : bool :=
  match a with
  | NaN => false
  | PInf => false
  | NInf => match b with Fin _ | PInf => true | _ => false end
  | Fin x =>
      match b with
      | Fin y => match (x ?= y)%Q with Lt => true | _ => false end
      | PInf => true
      | _ => false
      end
  end.

(** [a <= b]; false as soon as one side is NaN. *)
Definition fle (a b : pyfloat) : bool :=
  match a with
  | NaN => false
  | PInf => match b with PInf => true | _ => false end
  | NInf => match b with NaN => false | _ => true end
  | Fin x =>
      match b with
      | Fin y => match (x ?= y)%Q with Gt => false | _ => true end
      | PInf => true
      | _ => false
      end
  end.

(** [bool(x)]: only zero is falsy; NaN and the infinities are truthy. *)
Definition py_truthy (x : pyfloat) : bool :=
  match x with
  | Fin q => truthy q
  | _ => true
  end.

(** [max(a, b)] picks [b] when [b > a], [min(a, b)] picks [b] when
    [b < a]; otherwise both keep [a]. *)
Definition py_max (a b : pyfloat) : pyfloat := if flt a b then b else a.
Definition py_min (a b : pyfloat) : pyfloat := if flt b a then b else a.

(** Lines 225-227, for any start and end the request can carry; the
    duration of an opened clip is finite. *)
Definition trim_float (start : pyfloat) (end_ : option pyfloat) (duration : Q)
    : pyfloat * pyfloat :=
  let start' := py_max (Fin 0) (if py_truthy start then start else Fin 0) in
  let end' :=
    match end_ with
    | Some e => if py_truthy e then e else Fin duration
    | None => Fin duration
    end in
  let end' := py_min end' (Fin duration) in
  (start', end').

(** The stored path under which lines 217-219 answer 404: missing,
    falsy ([None], empty, zero), or a string naming no existing file. *)
Definition no_source_file (w : world) (d : document) : Prop :=
  match doc_fields d !! "path" with
  | None => True
  | Some VNone => True
  | Some (VStr p) => p = "" \/ p ∉ w_fs w
  | Some (VInt z) => z = 0%Z
  | Some (VFloat q) => (q == 0)%Q
  | Some (VOid _) => False
  end.

(** A disk on which every write goes through, and one on which a file
    name naming a missing directory cannot be opened. *)
Definition good_disk : string -> write_result := fun _ => WOk.
Definition no_such_directory : string -> write_result :=
  fun _ => WRaised "No such file or directory" false.

Module MoreFixtures.

(** A request with a negative volume and a speed of 0. *)
Definition odd_req : RenderRequest :=
  {| project_id := "p1"; asset_id := "a1"; start := 0; end_ := Some (-(2))%Q;
     speed := 0; volume := -(3); rotate := 0;
     resolution_width := None; resolution_height := None |}.

(** An engine for sources without an audio track. *)
Definition silent_engine : engine :=
  {| eng_open := fun _ => Done Fixtures.info10;
     eng_fx_raises := fun _ _ => None;
     eng_audio := fun _ => false;
     eng_write := fun _ _ => WOk |}.

Definition start_clip : clip := Clip Fixtures.clip_path1 [].

End MoreFixtures.

(** * Properties *)

(** ** Concrete runs *)

Example rstrip_slash_base : rstrip_slash "http://localhost:8000//" = "http://localhost:8000".
Proof. reflexivity. Qed.

Example str_take_counts_characters :
  str_take 2 "éàü" = "éà" /\ char_count "éàü" = 3 /\ String.length "éàü" = 6.
Proof. vm_compute. repeat split. Qed.

Example upload_into_missing_directory :
  upload_asset_io no_such_directory (Some Fixtures.lenient_engine) Fixtures.w_empty
    Fixtures.base Fixtures.stamp1 "p1" (mkUploadFile (Some "video/mp4") "a/b.mp4")
  = (HTTPError 500 "Internal Server Error", Fixtures.w_empty).
Proof. reflexivity. Qed.

Example nan_end_stays_nan : trim_float (Fin 2) (Some NaN) 10 = (Fin 2, NaN).
Proof. reflexivity. Qed.

Example scenario_chain :
  transform_chain Fixtures.lenient_engine (Clip Fixtures.clip_path1 []) 10
    Fixtures.scenario_req
  = Done (Clip Fixtures.clip_path1
            [Subclip 2 8; Speedx 2; Rotate 90; Volumex (1 # 2)]).
Proof. vm_compute. reflexivity. Qed.

Example scenario_render_persists_record :
  let r := render_video (Some Fixtures.lenient_engine) Fixtures.w1 Fixtures.base
             Fixtures.stamp1 Fixtures.scenario_req in
  http_status r.1 = 200%Z /\
  length (collection (w_db r.2) "render") = 1 /\
  elements (w_fs r.2)
  = ["static/outputs/render_20240102030405000000.mp4"; Fixtures.clip_path1].
Proof. vm_compute. repeat split; reflexivity. Qed.

Example failing_encoder_leaves_store :
  let r := render_video (Some Fixtures.failing_encoder) Fixtures.w1 Fixtures.base
             Fixtures.stamp1 Fixtures.scenario_req in
  r.1 = HTTPError 500 "Render failed: encoder crashed" /\
  w_db r.2 = w_db Fixtures.w1 /\
  out_path_of Fixtures.stamp1 ∈ w_fs r.2.
Proof.
  split; [vm_compute; reflexivity|]. split; [vm_compute; reflexivity|].
  apply elem_of_elements. vm_compute. left.
Qed.

Example no_backend_is_500 :
  render_video None Fixtures.w1 Fixtures.base Fixtures.stamp1 Fixtures.scenario_req
  = (HTTPError 500 "Video processing backend not available", Fixtures.w1).
Proof. reflexivity. Qed.

Example untyped_upload_rejected :
  upload_asset (Some Fixtures.lenient_engine) Fixtures.w_empty Fixtures.base
    Fixtures.stamp1 "p1" Fixtures.untyped_file
  = (HTTPError 400 "Unsupported file type", Fixtures.w_empty).
Proof. reflexivity. Qed.

(** ** Trim bounds *)

Lemma Qmin_same (d : Q) : Qmin d d = d.
Proof. unfold Qmin, GenericMinMax.gmin. destruct (d ?= d)%Q; reflexivity. Qed.

Lemma truthy_false (q : Q) : truthy q = false <-> (q == 0)%Q.
Proof.
  unfold truthy. rewrite negb_false_iff. apply Qeq_bool_iff.
Qed.

Lemma resolve_trim_start (payload : RenderRequest) (duration : Q) :
  ((resolve_trim payload duration).1 == Qmax 0 (start payload))%Q.
Proof.
  unfold resolve_trim; cbn [fst].
  destruct (truthy (start payload)) eqn:Ht; [reflexivity|].
  apply truthy_false in Ht. rewrite Ht. reflexivity.
Qed.

Lemma resolve_trim_end_le (payload : RenderRequest) (duration : Q) :
  ((resolve_trim payload duration).2 <= duration)%Q.
Proof. unfold resolve_trim; cbn [snd]. apply Q.le_min_r. Qed.

Lemma Qcompare_same (d : Q) : (d ?= d)%Q = Eq.
Proof. apply Qeq_alt. reflexivity. Qed.

Lemma py_max_fin (a b : Q) : py_max (Fin a) (Fin b) = Fin (Qmax a b).
Proof.
  unfold py_max, flt, Qmax, GenericMinMax.gmax. destruct (a ?= b)%Q; reflexivity.
Qed.

Lemma py_min_fin (a b : Q) : py_min (Fin a) (Fin b) = Fin (Qmin a b).
Proof.
  unfold py_min, flt, Qmin, GenericMinMax.gmin.
  rewrite <- (Qcompare_antisym a b). destruct (a ?= b)%Q; reflexivity.
Qed.

(** On finite values [trim_float] is [resolve_trim], the resolver the
    render uses. *)
Lemma trim_float_finite (payload : RenderRequest) (duration : Q) :
  trim_float (Fin (start payload)) (Fin <$> end_ payload) duration
  = (Fin (resolve_trim payload duration).1, Fin (resolve_trim payload duration).2).
Proof.
  unfold trim_float, resolve_trim; cbn [fst snd py_truthy].
  f_equal.
  - destruct (truthy (start payload)); apply py_max_fin.
  - destruct (end_ payload) as [e|]; cbn [fmap option_fmap option_map py_truthy];
      [destruct (truthy e)|]; apply py_min_fin.
Qed.

Lemma py_min_same (a : pyfloat) : py_min a a = a.
Proof. unfold py_min. destruct (flt a a); reflexivity. Qed.

Lemma fle_refl_fin (d : Q) : fle (Fin d) (Fin d) = true.
Proof. unfold fle. rewrite Qcompare_same. reflexivity. Qed.

Lemma flt_false_fle (e : pyfloat) (d : Q) :
  e <> NaN -> flt (Fin d) e = false -> fle e (Fin d) = true.
Proof.
  destruct e as [x| | |]; cbn; try congruence; try reflexivity.
  intros _. rewrite <- (Qcompare_antisym x d). destruct (x ?= d)%Q; cbn; congruence.
Qed.

(** C5, as amended: the trim step keeps a start greater than 0 and
    replaces any other start by 0 (a negative or NaN start becomes 0; a
    start beyond the source duration is kept, not reduced); an end that is
    unset or 0.0 becomes the source duration; an explicit end greater than
    the source duration becomes the source duration and any other explicit
    end is kept.  So the resolved start is at least 0, and the resolved end
    is at most the source duration unless it is NaN, which an explicit NaN
    end stays.  On finite values this is [resolve_trim]. *)
Theorem trim_clamps_start_below_end_above (req_start : pyfloat)
    (req_end : option pyfloat) (duration : Q) :
  let r := trim_float req_start req_end duration in
  (flt (Fin 0) req_start = true -> r.1 = req_start) /\
  (flt (Fin 0) req_start = false -> r.1 = Fin 0) /\
  fle (Fin 0) r.1 = true /\
  (req_end = None \/ (exists e, req_end = Some e /\ py_truthy e = false) ->
   r.2 = Fin duration) /\
  (forall e, req_end = Some e -> py_truthy e = true ->
     (flt (Fin duration) e = true -> r.2 = Fin duration) /\
     (flt (Fin duration) e = false -> r.2 = e)) /\
  (r.2 <> NaN -> fle r.2 (Fin duration) = true) /\
  (forall payload,
     req_start = Fin (start payload) -> req_end = Fin <$> end_ payload ->
     r = (Fin (resolve_trim payload duration).1,
          Fin (resolve_trim payload duration).2)).
Proof.
  cbv zeta.
  assert (Hstart1 : flt (Fin 0) req_start = true ->
                    (trim_float req_start req_end duration).1 = req_start).
  { intros Hpos. unfold trim_float; cbn [fst].
    assert (Ht : py_truthy req_start = true).
    { destruct req_start as [q| | |]; cbn in *; try reflexivity.
      unfold truthy. destruct (Qeq_bool q 0) eqn:Hq; [|reflexivity].
      apply Qeq_bool_iff, Qeq_sym, Qeq_alt in Hq. rewrite Hq in Hpos. discriminate Hpos. }
    rewrite Ht. unfold py_max. rewrite Hpos. reflexivity. }
  assert (Hstart0 : flt (Fin 0) req_start = false ->
                    (trim_float req_start req_end duration).1 = Fin 0).
  { intros Hneg. unfold trim_float; cbn [fst].
    destruct (py_truthy req_start); unfold py_max.
    - rewrite Hneg. reflexivity.
    - destruct (flt (Fin 0) (Fin 0)); reflexivity. }
  assert (Hend0 : req_end = None \/ (exists e, req_end = Some e /\ py_truthy e = false) ->
                  (trim_float req_start req_end duration).2 = Fin duration).
  { intros [-> | (e & -> & He)]; unfold trim_float; cbn [snd];
      [|rewrite He]; apply py_min_same. }
  assert (Hend1 : forall e, req_end = Some e -> py_truthy e = true ->
            (flt (Fin duration) e = true ->
             (trim_float req_start req_end duration).2 = Fin duration) /\
            (flt (Fin duration) e = false ->
             (trim_float req_start req_end duration).2 = e)).
  { intros e -> He. unfold trim_float; cbn [snd]. rewrite He. unfold py_min.
    split; intros ->; reflexivity. }
  split; [exact Hstart1|]. split; [exact Hstart0|]. split.
  { destruct (flt (Fin 0) req_start) eqn:Hpos.
    - rewrite (Hstart1 eq_refl).
      destruct req_start as [q| | |]; cbn in *; try discriminate; try reflexivity.
      destruct (0 ?= q)%Q; try discriminate; reflexivity.
    - rewrite (Hstart0 eq_refl). apply fle_refl_fin. }
  split; [exact Hend0|]. split; [exact Hend1|]. split.
  { intros Hnan. destruct req_end as [e|].
    - destruct (py_truthy e) eqn:He.
      + destruct (Hend1 e eq_refl He) as [Hcap Hkeep].
        destruct (flt (Fin duration) e) eqn:Hlt.
        * rewrite (Hcap eq_refl). apply fle_refl_fin.
        * rewrite (Hkeep eq_refl) in *. apply flt_false_fle; assumption.
      + rewrite Hend0 by (right; exists e; split; [reflexivity | exact He]).
        apply fle_refl_fin.
    - rewrite Hend0 by (left; reflexivity). apply fle_refl_fin. }
  intros payload -> ->. apply trim_float_finite.
Qed.

Lemma trim_clamps_start_below_end_above_witness :
  flt (Fin 0) (Fin 15) = true /\
  (trim_float (Fin 15) None 10).1 = Fin 15 /\
  (trim_float (Fin 15) None 10).2 = Fin 10 /\
  trim_float (Fin 15) None 10
  = (Fin (resolve_trim Fixtures.late_start_req 10).1,
     Fin (resolve_trim Fixtures.late_start_req 10).2) /\
  flt (Fin 0) NaN = false /\ py_truthy NaN = true /\ flt (Fin 10) NaN = false /\
  trim_float NaN (Some NaN) 10 = (Fin 0, NaN).
Proof.
  destruct (trim_clamps_start_below_end_above (Fin 15) None 10)
    as (Hkeep & _ & _ & Hunset & _ & _ & Hfin).
  destruct (trim_clamps_start_below_end_above NaN (Some NaN) 10)
    as (_ & Hzero & _ & _ & Hexp & _ & _).
  assert (H1 : flt (Fin 0) (Fin 15) = true) by reflexivity.
  assert (H2 : flt (Fin 0) NaN = false) by reflexivity.
  assert (H3 : py_truthy NaN = true) by reflexivity.
  assert (H4 : flt (Fin 10) NaN = false) by reflexivity.
  split; [exact H1|]. split; [exact (Hkeep H1)|].
  split; [exact (Hunset (or_introl eq_refl))|].
  split; [exact (Hfin Fixtures.late_start_req eq_refl eq_refl)|].
  split; [exact H2|]. split; [exact H3|]. split; [exact H4|].
  rewrite (surjective_pairing (trim_float NaN (Some NaN) 10)).
  rewrite (Hzero H2), (proj2 (Hexp NaN eq_refl H3) H4). reflexivity.
Defined.

(** C5 as stated fails: with a source of 10 seconds a start of 15 is not
    reduced to 10; the resolved bounds are (15, 10). *)
Lemma trim_start_beyond_duration_is_kept :
  resolve_trim Fixtures.late_start_req 10 = (15%Q, 10%Q) /\
  (10 < (resolve_trim Fixtures.late_start_req 10).1)%Q.
Proof. split; [reflexivity | vm_compute; reflexivity]. Qed.

(** ** An explicit end of 0.0 *)

Lemma resolve_trim_zero_end (payload : RenderRequest) (duration e : Q) :
  end_ payload = Some e -> (e == 0)%Q ->
  resolve_trim payload duration = resolve_trim (set_end None payload) duration.
Proof.
  intros He Hz. apply truthy_false in Hz.
  unfold resolve_trim, set_end; cbn [start end_]. rewrite He, Hz. reflexivity.
Qed.

Lemma transform_chain_zero_end (eng : engine) (c : clip) (duration e : Q)
    (payload : RenderRequest) :
  end_ payload = Some e -> (e == 0)%Q ->
  transform_chain eng c duration payload
  = transform_chain eng c duration (set_end None payload).
Proof.
  intros He Hz. unfold transform_chain, step_trim.
  rewrite (resolve_trim_zero_end payload duration e He Hz). reflexivity.
Qed.

(** C10: a request whose end is explicitly 0.0 is handled exactly as the
    same request with end unset: the resolved end is the source duration,
    and the whole render (response and resulting state) is the same. *)
Theorem zero_end_treated_as_unset (VideoFileClip : option engine) (w : world)
    (base_url stamp : string) (payload : RenderRequest) (e : Q) :
  end_ payload = Some e -> (e == 0)%Q ->
  (forall duration, (resolve_trim payload duration).2 = duration) /\
  render_video VideoFileClip w base_url stamp payload
  = render_video VideoFileClip w base_url stamp (set_end None payload).
Proof.
  intros He Hz. split.
  - intros duration. rewrite (resolve_trim_zero_end payload duration e He Hz).
    unfold resolve_trim, set_end; cbn [snd end_]. apply Qmin_same.
  - unfold render_video. destruct VideoFileClip as [eng|]; [|reflexivity].
    change (fetch_asset (w_db w) (set_end None payload))
      with (fetch_asset (w_db w) payload).
    destruct (fetch_asset (w_db w) payload) as [d|]; [|reflexivity].
    destruct (source_path_of w d) as [path|]; [|reflexivity].
    unfold render_try. destruct (eng_open eng path) as [vi|msg]; [|reflexivity].
    rewrite <- (transform_chain_zero_end eng _ (vi_duration vi) e payload He Hz).
    rewrite <- (resolve_trim_zero_end payload (vi_duration vi) e He Hz).
    reflexivity.
Qed.

Lemma zero_end_treated_as_unset_witness :
  (resolve_trim Fixtures.zero_end_req 10).2 = 10%Q /\
  render_video (Some Fixtures.lenient_engine) Fixtures.w1 Fixtures.base
    Fixtures.stamp1 Fixtures.zero_end_req
  = render_video (Some Fixtures.lenient_engine) Fixtures.w1 Fixtures.base
      Fixtures.stamp1 (set_end None Fixtures.zero_end_req).
Proof.
  assert (He : end_ Fixtures.zero_end_req = Some 0%Q) by reflexivity.
  assert (Hz : (0 == 0)%Q) by reflexivity.
  destruct (zero_end_treated_as_unset (Some Fixtures.lenient_engine) Fixtures.w1
              Fixtures.base Fixtures.stamp1 Fixtures.zero_end_req 0 He Hz)
    as [Hend Hsame].
  split; [exact (Hend 10%Q) | exact Hsame].
Defined.

(** ** Resolution of the source asset *)

Lemma value_eqb_str (u : value) (s : string) :
  value_eqb u (VStr s) = true <-> u = VStr s.
Proof.
  destruct u; simpl; try (split; [discriminate | congruence]).
  rewrite String.eqb_eq. split; congruence.
Qed.

Lemma in_project_spec (pid : string) (d : document) :
  in_project pid d = true <-> doc_fields d !! "project_id" = Some (VStr pid).
Proof.
  unfold in_project, matches, cond_holds, doc_field; simpl.
  rewrite andb_true_r.
  destruct (doc_fields d !! "project_id") as [u|].
  - rewrite value_eqb_str. split; congruence.
  - split; discriminate.
Qed.

Lemma first_query_is_project_query (db : database) (pid : string) :
  get_documents db "asset" [("_id", CExists true); ("project_id", CEq (VStr pid))]
  = List.filter (in_project pid) (collection db "asset").
Proof. unfold get_documents. apply List.filter_ext. intros d. reflexivity. Qed.

Lemma fallback_query_is_project_query (db : database) (pid : string) :
  get_documents db "asset" [("project_id", CEq (VStr pid))]
  = List.filter (in_project pid) (collection db "asset").
Proof. reflexivity. Qed.

Lemma fetch_asset_find (db : database) (payload : RenderRequest) :
  fetch_asset db payload
  = List.find (has_id (asset_id payload))
      (List.filter (in_project (project_id payload)) (collection db "asset")).
Proof.
  unfold fetch_asset.
  rewrite first_query_is_project_query, fallback_query_is_project_query.
  destruct (List.find _ _); reflexivity.
Qed.

Lemma fetch_asset_some (db : database) (payload : RenderRequest) (d : document) :
  fetch_asset db payload = Some d ->
  In d (collection db "asset") /\
  doc_id d = asset_id payload /\
  doc_fields d !! "project_id" = Some (VStr (project_id payload)).
Proof.
  rewrite fetch_asset_find. intros Hf.
  apply List.find_some in Hf as [Hin Hid].
  apply List.filter_In in Hin as [Hin Hp].
  split; [exact Hin|]. split.
  - apply String.eqb_eq. exact Hid.
  - apply in_project_spec. exact Hp.
Qed.

Lemma fetch_asset_none (db : database) (payload : RenderRequest) :
  (forall d, In d (collection db "asset") -> doc_id d = asset_id payload ->
             doc_fields d !! "project_id" <> Some (VStr (project_id payload))) ->
  fetch_asset db payload = None.
Proof.
  intros Hno. destruct (fetch_asset db payload) as [d|] eqn:Hf; [|reflexivity].
  apply fetch_asset_some in Hf as (Hin & Hid & Hp).
  destruct (Hno d Hin Hid Hp).
Qed.

Lemma fetch_asset_complete (db : database) (payload : RenderRequest) (d : document) :
  In d (collection db "asset") ->
  doc_id d = asset_id payload ->
  doc_fields d !! "project_id" = Some (VStr (project_id payload)) ->
  exists d', fetch_asset db payload = Some d'.
Proof.
  intros Hin Hid Hp. rewrite fetch_asset_find.
  destruct (List.find _ _) as [d'|] eqn:Hf; [exists d'; reflexivity|].
  assert (Hd : In d (List.filter (in_project (project_id payload))
                       (collection db "asset")))
    by (apply List.filter_In; split; [exact Hin | apply in_project_spec, Hp]).
  pose proof (List.find_none _ _ Hf d Hd) as Hfalse.
  unfold has_id in Hfalse. rewrite Hid, String.eqb_refl in Hfalse. discriminate Hfalse.
Qed.

(** C2, as amended: the source asset is resolved by a lookup scoped to
    the request's projectId, and so is the fallback, which scans the same
    records as the first lookup.  What is resolved is the first stored
    asset that has the request's assetId and the request's projectId: an
    asset that is found carries both, and one is found whenever such an
    asset is stored.  A request whose projectId matches no stored asset of
    that id resolves nothing and, with the media engine loaded, is answered
    404 "Asset not found": there is no cross-project leniency. *)
Theorem asset_lookup_is_project_scoped (eng : engine) (w : world)
    (base_url stamp : string) (payload : RenderRequest) :
  get_documents (w_db w) "asset" [("project_id", CEq (VStr (project_id payload)))]
  = get_documents (w_db w) "asset"
      [("_id", CExists true); ("project_id", CEq (VStr (project_id payload)))] /\
  fetch_asset (w_db w) payload
  = List.find (has_id (asset_id payload))
      (List.filter (in_project (project_id payload)) (collection (w_db w) "asset")) /\
  (forall d, fetch_asset (w_db w) payload = Some d ->
     In d (collection (w_db w) "asset") /\
     doc_id d = asset_id payload /\
     doc_fields d !! "project_id" = Some (VStr (project_id payload))) /\
  (forall d, In d (collection (w_db w) "asset") ->
     doc_id d = asset_id payload ->
     doc_fields d !! "project_id" = Some (VStr (project_id payload)) ->
     exists d', fetch_asset (w_db w) payload = Some d') /\
  ((forall d, In d (collection (w_db w) "asset") -> doc_id d = asset_id payload ->
              doc_fields d !! "project_id" <> Some (VStr (project_id payload))) ->
   fetch_asset (w_db w) payload = None /\
   render_video (Some eng) w base_url stamp payload
   = (HTTPError 404 "Asset not found", w)).
Proof.
  split; [rewrite first_query_is_project_query; reflexivity|].
  split; [apply fetch_asset_find|].
  split; [intros d; apply fetch_asset_some|].
  split; [intros d; apply fetch_asset_complete|].
  intros Hno. split.
  - apply fetch_asset_none, Hno.
  - unfold render_video. rewrite (fetch_asset_none _ _ Hno). reflexivity.
Qed.

Lemma asset_lookup_is_project_scoped_witness :
  (In Fixtures.asset1 (collection (w_db Fixtures.w1) "asset") /\
   doc_id Fixtures.asset1 = asset_id Fixtures.late_start_req /\
   doc_fields Fixtures.asset1 !! "project_id"
   = Some (VStr (project_id Fixtures.late_start_req))) /\
  (exists d', fetch_asset (w_db Fixtures.w1) Fixtures.late_start_req = Some d') /\
  (forall d, In d (collection (w_db Fixtures.w1) "asset") ->
             doc_id d = asset_id Fixtures.other_project_req ->
             doc_fields d !! "project_id"
             <> Some (VStr (project_id Fixtures.other_project_req))) /\
  fetch_asset (w_db Fixtures.w1) Fixtures.other_project_req = None /\
  render_video (Some Fixtures.lenient_engine) Fixtures.w1 Fixtures.base
    Fixtures.stamp1 Fixtures.other_project_req
  = (HTTPError 404 "Asset not found", Fixtures.w1).
Proof.
  assert (Hin : In Fixtures.asset1 (collection (w_db Fixtures.w1) "asset"))
    by (left; reflexivity).
  assert (Hid : doc_id Fixtures.asset1 = asset_id Fixtures.late_start_req) by reflexivity.
  assert (Hp : doc_fields Fixtures.asset1 !! "project_id"
               = Some (VStr (project_id Fixtures.late_start_req))) by reflexivity.
  assert (Hno : forall d, In d (collection (w_db Fixtures.w1) "asset") ->
             doc_id d = asset_id Fixtures.other_project_req ->
             doc_fields d !! "project_id"
             <> Some (VStr (project_id Fixtures.other_project_req))).
  { intros d [<-|[]] _. vm_compute. discriminate. }
  destruct (asset_lookup_is_project_scoped Fixtures.lenient_engine Fixtures.w1
              Fixtures.base Fixtures.stamp1 Fixtures.late_start_req)
    as (_ & _ & _ & Hfound & _).
  destruct (asset_lookup_is_project_scoped Fixtures.lenient_engine Fixtures.w1
              Fixtures.base Fixtures.stamp1 Fixtures.other_project_req)
    as (_ & _ & _ & _ & Hnone).
  split; [split; [exact Hin | split; [exact Hid | exact Hp]]|].
  split; [exact (Hfound _ Hin Hid Hp)|].
  split; [exact Hno | exact (Hnone Hno)].
Defined.

(** C2 as stated fails: asset "a1" is stored under project "p1"; a request
    naming project "p2" would resolve it under the lookup the specification
    describes, but the handler finds nothing and answers 404. *)
Lemma cross_project_request_is_not_resolved :
  spec_fetch_asset Fixtures.db1 Fixtures.other_project_req = Some Fixtures.asset1 /\
  fetch_asset Fixtures.db1 Fixtures.other_project_req = None /\
  render_video (Some Fixtures.lenient_engine) Fixtures.w1 Fixtures.base
    Fixtures.stamp1 Fixtures.other_project_req
  = (HTTPError 404 "Asset not found", Fixtures.w1).
Proof. split; [|split]; vm_compute; reflexivity. Qed.

Lemma no_source_file_none (w : world) (d : document) :
  no_source_file w d -> source_path_of w d = None.
Proof.
  unfold no_source_file, source_path_of.
  destruct (doc_fields d !! "path") as [[|p| | |]|]; try reflexivity.
  intros [-> | Hp]; [reflexivity|].
  rewrite bool_decide_eq_false_2 by exact Hp. rewrite andb_false_r. reflexivity.
Qed.

(** C6, as amended: with the media engine loaded, a request whose lookup
    finds no asset, or whose asset has a stored path that is missing, falsy
    or names no existing file, is answered 404 and leaves the server state,
    hence the metadata store, as it was.  The handler does not test that
    the file can be read: an existing file the engine cannot open is
    answered 500 "Render failed: ...".  Without the media engine every
    request is answered 500 before any lookup.  In each of these cases no
    render record is persisted. *)
Theorem render_missing_asset_or_file_is_404 (VideoFileClip : option engine)
    (w : world) (base_url stamp : string) (payload : RenderRequest) :
  (fetch_asset (w_db w) payload = None \/
   (exists d, fetch_asset (w_db w) payload = Some d /\ no_source_file w d) ->
   (forall eng, VideoFileClip = Some eng ->
      exists detail,
        render_video VideoFileClip w base_url stamp payload
        = (HTTPError 404 detail, w) /\
        (detail = "Asset not found" \/ detail = "Source file not found on server"))) /\
  (forall eng d path msg,
     VideoFileClip = Some eng ->
     fetch_asset (w_db w) payload = Some d ->
     source_path_of w d = Some path ->
     eng_open eng path = Raised msg ->
     render_video VideoFileClip w base_url stamp payload
     = (HTTPError 500 ("Render failed: " ++ msg), w)) /\
  (VideoFileClip = None ->
   render_video VideoFileClip w base_url stamp payload
   = (HTTPError 500 "Video processing backend not available", w)).
Proof.
  split; [|split].
  - intros Hmiss eng ->. unfold render_video.
    destruct Hmiss as [Hnone | (d & Hd & Hpath)].
    + rewrite Hnone. eexists. split; [reflexivity | left; reflexivity].
    + rewrite Hd, (no_source_file_none _ _ Hpath).
      eexists. split; [reflexivity | right; reflexivity].
  - intros eng d path msg -> Hd Hpath Hopen. unfold render_video, render_try.
    rewrite Hd, Hpath, Hopen. reflexivity.
  - intros ->. reflexivity.
Qed.

Lemma render_missing_asset_or_file_is_404_witness :
  fetch_asset (w_db Fixtures.w1) Fixtures.missing_req = None /\
  (exists detail,
     render_video (Some Fixtures.lenient_engine) Fixtures.w1 Fixtures.base
       Fixtures.stamp1 Fixtures.missing_req
     = (HTTPError 404 detail, Fixtures.w1)) /\
  (fetch_asset (w_db Fixtures.w1_no_file) Fixtures.late_start_req = Some Fixtures.asset1 /\
   no_source_file Fixtures.w1_no_file Fixtures.asset1) /\
  (exists detail,
     render_video (Some Fixtures.lenient_engine) Fixtures.w1_no_file Fixtures.base
       Fixtures.stamp1 Fixtures.late_start_req
     = (HTTPError 404 detail, Fixtures.w1_no_file)).
Proof.
  assert (H1 : fetch_asset (w_db Fixtures.w1) Fixtures.missing_req = None)
    by (vm_compute; reflexivity).
  assert (H2 : fetch_asset (w_db Fixtures.w1_no_file) Fixtures.late_start_req
               = Some Fixtures.asset1 /\
               no_source_file Fixtures.w1_no_file Fixtures.asset1).
  { split; [vm_compute; reflexivity|]. right. apply not_elem_of_empty. }
  split; [exact H1|]. split.
  - destruct (proj1 (render_missing_asset_or_file_is_404 (Some Fixtures.lenient_engine)
                       Fixtures.w1 Fixtures.base Fixtures.stamp1 Fixtures.missing_req)
                (or_introl H1) Fixtures.lenient_engine eq_refl)
      as (detail & Hr & _).
    exists detail. exact Hr.
  - split; [exact H2|].
    destruct (proj1 (render_missing_asset_or_file_is_404 (Some Fixtures.lenient_engine)
                       Fixtures.w1_no_file Fixtures.base Fixtures.stamp1
                       Fixtures.late_start_req)
                (or_intror (ex_intro _ Fixtures.asset1 H2)) Fixtures.lenient_engine eq_refl)
      as (detail & Hr & _).
    exists detail. exact Hr.
Defined.

(** C6 as stated fails.  Without the media engine a request for an asset
    that does not exist is answered 500, not 404; and with an engine that
    cannot read the file, a request for an asset whose file exists on disk
    is answered 500 "Render failed: ...", not 404. *)
Lemma missing_asset_or_unreadable_file_is_500 :
  fetch_asset (w_db Fixtures.w1) Fixtures.missing_req = None /\
  render_video None Fixtures.w1 Fixtures.base Fixtures.stamp1 Fixtures.missing_req
  = (HTTPError 500 "Video processing backend not available", Fixtures.w1) /\
  source_path_of Fixtures.w1 Fixtures.asset1 = Some Fixtures.clip_path1 /\
  eng_open Fixtures.blind_engine Fixtures.clip_path1 = Raised "could not read file" /\
  render_video (Some Fixtures.blind_engine) Fixtures.w1 Fixtures.base Fixtures.stamp1
    Fixtures.late_start_req
  = (HTTPError 500 "Render failed: could not read file", Fixtures.w1).
Proof. repeat split; vm_compute; reflexivity. Qed.

(** ** Atomicity of the render record *)

Ltac unfold_render :=
  unfold render_video, render_try, render_failed.

Lemma collection_create_same (db : database) (name : string) (fields : gmap string value) :
  collection (create_document db name fields).2 name
  = (collection db name ++ [Document (create_document db name fields).1 fields])%list.
Proof.
  unfold create_document, collection; cbn [fst snd db_colls].
  rewrite lookup_insert_eq. reflexivity.
Qed.

Lemma collection_create_other (db : database) (name other : string)
    (fields : gmap string value) :
  other <> name ->
  collection (create_document db name fields).2 other = collection db other.
Proof.
  intros Hne. unfold create_document, collection; cbn [snd db_colls].
  rewrite lookup_insert_ne by congruence. reflexivity.
Qed.

Lemma render_doc_status (payload : RenderRequest) (s e : Q) (url : string) :
  render_doc_of payload s e url !! "status" = Some (VStr "completed").
Proof. reflexivity. Qed.

(** C3: a render that answers successfully has had its output file
    written by the encoder, and has appended exactly one record, of status
    "completed", to the render collection; a render that answers with an
    error, whichever step failed, leaves the metadata store as it was. *)
Theorem render_record_only_after_output_written (VideoFileClip : option engine)
    (w : world) (base_url stamp : string) (payload : RenderRequest) :
  match render_video VideoFileClip w base_url stamp payload with
  | (Ok resp, w') =>
      exists eng d path vi subclip rec,
        VideoFileClip = Some eng /\
        fetch_asset (w_db w) payload = Some d /\
        source_path_of w d = Some path /\
        eng_open eng path = Done vi /\
        transform_chain eng (Clip path []) (vi_duration vi) payload = Done subclip /\
        eng_write eng subclip (out_path_of stamp) = WOk /\
        out_path_of stamp ∈ w_fs w' /\
        doc_fields rec !! "status" = Some (VStr "completed") /\
        collection (w_db w') "render" = (collection (w_db w) "render" ++ [rec])%list /\
        (forall name, name <> "render" ->
                      collection (w_db w') name = collection (w_db w) name)
  | (HTTPError _ _, w') => w_db w' = w_db w
  end.
Proof.
  unfold_render.
  destruct VideoFileClip as [eng|]; [|reflexivity].
  destruct (fetch_asset (w_db w) payload) as [d|] eqn:Hd; [|reflexivity].
  destruct (source_path_of w d) as [path|] eqn:Hpath; [|reflexivity].
  destruct (eng_open eng path) as [vi|msg] eqn:Hopen; [|reflexivity].
  destruct (resolve_trim payload (vi_duration vi)) as [s e].
  destruct (transform_chain eng _ (vi_duration vi) payload) as [subclip|msg] eqn:Hchain;
    [|reflexivity].
  destruct (eng_write eng subclip (out_path_of stamp)) as [|msg partial] eqn:Hwrite;
    [|reflexivity].
  set (doc := render_doc_of payload s e _).
  destruct (create_document (w_db w) "render" doc) as [rid db'] eqn:Hcreate.
  exists eng, d, path, vi, subclip, (Document rid doc).
  assert (Hdb : db' = (create_document (w_db w) "render" doc).2) by (rewrite Hcreate; reflexivity).
  assert (Hid : rid = (create_document (w_db w) "render" doc).1) by (rewrite Hcreate; reflexivity).
  cbn [w_db w_fs doc_fields].
  split; [reflexivity|]. split; [reflexivity|]. split; [exact Hpath|].
  split; [exact Hopen|]. split; [exact Hchain|].
  split; [exact Hwrite|]. split; [|split; [|split]].
  - apply elem_of_union_l, elem_of_singleton. reflexivity.
  - apply render_doc_status.
  - rewrite Hdb, Hid. apply collection_create_same.
  - intros name Hne. rewrite Hdb. apply collection_create_other. exact Hne.
Qed.

(** ** A trim whose end does not exceed its start *)





(** ** Steps of the transform chain *)

Lemma bind_done {A B} (x : outcome A) (f : A -> outcome B) (b : B) :
  x ≫= f = Done b -> exists a, x = Done a /\ f a = Done b.
Proof.
  unfold mbind, outcome_bind, obind. destruct x as [a|msg]; [|discriminate].
  intros H. exists a. split; [reflexivity | exact H].
Qed.

Lemma apply_fx_done (eng : engine) (c c' : clip) (f : fx) :
  apply_fx eng c f = Done c' -> clip_fx c' = (clip_fx c ++ [f])%list.
Proof.
  unfold apply_fx. destruct (eng_fx_raises eng c f); [discriminate|].
  intros [= <-]. reflexivity.
Qed.

Lemma maybe_fx_extends (eng : engine) (b : bool) (c c' : clip) (f : fx) :
  (if b then apply_fx eng c f else mret c) = Done c' ->
  exists l, clip_fx c' = (clip_fx c ++ l)%list.
Proof.
  destruct b.
  - intros H. exists [f]. exact (apply_fx_done _ _ _ _ H).
  - intros [= <-]. exists []. rewrite app_nil_r. reflexivity.
Qed.

Lemma step_volume_extends (eng : engine) (payload : RenderRequest) (c c' : clip) :
  step_volume eng payload c = Done c' -> exists l, clip_fx c' = (clip_fx c ++ l)%list.
Proof. apply maybe_fx_extends. Qed.

Lemma step_resize_extends (eng : engine) (payload : RenderRequest) (c c' : clip) :
  step_resize eng payload c = Done c' -> exists l, clip_fx c' = (clip_fx c ++ l)%list.
Proof.
  unfold step_resize.
  destruct (resolution_width payload) as [wd|], (resolution_height payload) as [ht|];
    try (intros [= <-]; exists []; rewrite app_nil_r; reflexivity).
  apply maybe_fx_extends.
Qed.

(** Requests that agree on the asset they name and on the chain they
    request are answered with the same status. *)
Lemma render_video_status_congr (VideoFileClip : option engine) (w : world)
    (base_url stamp : string) (p p' : RenderRequest) :
  project_id p = project_id p' -> asset_id p = asset_id p' ->
  (forall eng c duration,
     transform_chain eng c duration p = transform_chain eng c duration p') ->
  http_status (render_video VideoFileClip w base_url stamp p).1
  = http_status (render_video VideoFileClip w base_url stamp p').1.
Proof.
  intros Hp Ha Hc. unfold_render.
  destruct VideoFileClip as [eng|]; [|reflexivity].
  unfold fetch_asset. rewrite <- Hp, <- Ha.
  destruct (match List.find _ _ with Some d => Some d | None => _ end) as [d|];
    [|reflexivity].
  destruct (source_path_of w d) as [path|]; [|reflexivity].
  destruct (eng_open eng path) as [vi|msg]; [|reflexivity].
  rewrite <- Hc.
  destruct (resolve_trim p (vi_duration vi)), (resolve_trim p' (vi_duration vi)).
  destruct (transform_chain eng _ (vi_duration vi) p) as [subclip|msg]; [|reflexivity].
  destruct (eng_write eng subclip (out_path_of stamp)); [|reflexivity].
  do 2 destruct (create_document _ _ _). reflexivity.
Qed.

(** ** Resize *)

Lemma step_resize_one_missing (eng : engine) (payload : RenderRequest) (c : clip) :
  resolution_width payload = None \/ resolution_height payload = None ->
  step_resize eng payload c = step_resize eng (clear_resolution payload) c.
Proof.
  unfold step_resize, clear_resolution; cbn [resolution_width resolution_height].
  intros [-> | ->]; [reflexivity|].
  destruct (resolution_width payload); reflexivity.
Qed.

Lemma transform_chain_one_missing (eng : engine) (clip0 : clip) (duration : Q)
    (payload : RenderRequest) :
  resolution_width payload = None \/ resolution_height payload = None ->
  transform_chain eng clip0 duration payload
  = transform_chain eng clip0 duration (clear_resolution payload).
Proof.
  intros H. unfold transform_chain, mbind, outcome_bind, obind.
  change (step_trim eng (clear_resolution payload)) with (step_trim eng payload).
  destruct (step_trim eng payload duration clip0) as [c1|]; [|reflexivity].
  change (step_speed eng (clear_resolution payload)) with (step_speed eng payload).
  destruct (step_speed eng payload c1) as [c2|]; [|reflexivity].
  change (step_rotate eng (clear_resolution payload)) with (step_rotate eng payload).
  destruct (step_rotate eng payload c2) as [c3|]; [|reflexivity].
  change (step_volume eng (clear_resolution payload)) with (step_volume eng payload).
  destruct (step_volume eng payload c3) as [c4|]; [|reflexivity].
  apply step_resize_one_missing, H.
Qed.

(** C4, as amended: a request that supplies only one of resolutionWidth
    and resolutionHeight is not rejected for it: the resize step is
    skipped, the transform chain is that of the same request with neither
    supplied, and so is the status of the answer.  A request that supplies
    both, neither being 0, has its frames resized to exactly that pair as
    the last step before encoding. *)
Theorem resize_applies_only_with_both_dimensions (VideoFileClip : option engine)
    (eng : engine) (w : world) (base_url stamp : string) (clip0 : clip)
    (duration : Q) (payload : RenderRequest) :
  (resolution_width payload = None \/ resolution_height payload = None ->
     transform_chain eng clip0 duration payload
     = transform_chain eng clip0 duration (clear_resolution payload) /\
     http_status (render_video VideoFileClip w base_url stamp payload).1
     = http_status (render_video VideoFileClip w base_url stamp
                      (clear_resolution payload)).1) /\
  (forall width height subclip,
     resolution_width payload = Some width ->
     resolution_height payload = Some height ->
     width <> 0%Z -> height <> 0%Z ->
     transform_chain eng clip0 duration payload = Done subclip ->
     last (clip_fx subclip) = Some (Resize width height)).
Proof.
  split.
  - intros H. split; [apply transform_chain_one_missing, H|].
    apply render_video_status_congr; try reflexivity.
    intros eng' c dur. apply transform_chain_one_missing, H.
  - intros width height subclip Hw Hh Hw0 Hh0 Hchain.
    unfold transform_chain in Hchain.
    apply bind_done in Hchain as (c1 & _ & Hchain).
    apply bind_done in Hchain as (c2 & _ & Hchain).
    apply bind_done in Hchain as (c3 & _ & Hchain).
    apply bind_done in Hchain as (c4 & _ & Hchain).
    unfold step_resize in Hchain. rewrite Hw, Hh in Hchain.
    apply Z.eqb_neq in Hw0, Hh0. rewrite Hw0, Hh0 in Hchain. cbn [negb andb] in Hchain.
    rewrite (apply_fx_done _ _ _ _ Hchain). apply last_snoc.
Qed.

Lemma resize_applies_only_with_both_dimensions_witness :
  (resolution_width Fixtures.width_only_req = None \/
   resolution_height Fixtures.width_only_req = None) /\
  http_status (render_video (Some Fixtures.lenient_engine) Fixtures.w1 Fixtures.base
                 Fixtures.stamp1 Fixtures.width_only_req).1
  = http_status (render_video (Some Fixtures.lenient_engine) Fixtures.w1 Fixtures.base
                   Fixtures.stamp1 (clear_resolution Fixtures.width_only_req)).1 /\
  (exists subclip,
     transform_chain Fixtures.lenient_engine (Clip Fixtures.clip_path1 []) 10
       Fixtures.both_sizes_req = Done subclip /\
     last (clip_fx subclip) = Some (Resize 640 360)).
Proof.
  assert (H1 : resolution_width Fixtures.width_only_req = None \/
               resolution_height Fixtures.width_only_req = None)
    by (right; reflexivity).
  split; [exact H1|]. split.
  - exact (proj2 (proj1 (resize_applies_only_with_both_dimensions
                           (Some Fixtures.lenient_engine) Fixtures.lenient_engine
                           Fixtures.w1 Fixtures.base Fixtures.stamp1
                           (Clip Fixtures.clip_path1 []) 10 Fixtures.width_only_req) H1)).
  - eexists. split; [vm_compute; reflexivity|].
    apply (proj2 (resize_applies_only_with_both_dimensions
                    (Some Fixtures.lenient_engine) Fixtures.lenient_engine
                    Fixtures.w1 Fixtures.base Fixtures.stamp1
                    (Clip Fixtures.clip_path1 []) 10 Fixtures.both_sizes_req)
             640%Z 360%Z); try reflexivity; try discriminate.
Defined.

(** C4 as stated fails: a request that supplies a width of 640 and no
    height is not rejected; it completes with status 200 and the clip is
    encoded without any resize. *)
Lemma width_without_height_is_not_rejected :
  resolution_width Fixtures.width_only_req = Some 640%Z /\
  resolution_height Fixtures.width_only_req = None /\
  http_status (render_video (Some Fixtures.lenient_engine) Fixtures.w1 Fixtures.base
                 Fixtures.stamp1 Fixtures.width_only_req).1 = 200%Z /\
  transform_chain Fixtures.lenient_engine (Clip Fixtures.clip_path1 []) 10
    Fixtures.width_only_req
  = Done (Clip Fixtures.clip_path1 [Subclip 0 10; Volumex 1]).
Proof. repeat split; vm_compute; reflexivity. Qed.

(** ** Rotate *)

Lemma rotate_map_outside (z : Z) :
  ~ In z [0; 90; 180; 270]%Z -> rotate_map !! z = None.
Proof.
  intros Hz. unfold rotate_map.
  repeat (rewrite lookup_insert_ne by (intros <-; apply Hz; simpl; tauto)).
  apply lookup_empty.
Qed.

Lemma rotate_map_inside (z : Z) :
  In z [90; 180; 270]%Z -> rotate_map !! z = Some z /\ z <> 0%Z.
Proof.
  intros [<-|[<-|[<-|[]]]]; split; (reflexivity || discriminate).
Qed.

Lemma step_rotate_outside (eng : engine) (payload : RenderRequest) (c : clip) :
  ~ In (rotate payload) [0; 90; 180; 270]%Z ->
  step_rotate eng payload c = Done c /\
  step_rotate eng (set_rotate 0 payload) c = Done c.
Proof.
  intros Hz. unfold step_rotate, set_rotate; cbn [rotate].
  rewrite (rotate_map_outside _ Hz). split; reflexivity.
Qed.

Lemma transform_chain_rotate_outside (eng : engine) (clip0 : clip) (duration : Q)
    (payload : RenderRequest) :
  ~ In (rotate payload) [0; 90; 180; 270]%Z ->
  transform_chain eng clip0 duration payload
  = transform_chain eng clip0 duration (set_rotate 0 payload).
Proof.
  intros Hz. unfold transform_chain, mbind, outcome_bind, obind.
  change (step_trim eng (set_rotate 0 payload)) with (step_trim eng payload).
  destruct (step_trim eng payload duration clip0) as [c1|]; [|reflexivity].
  change (step_speed eng (set_rotate 0 payload)) with (step_speed eng payload).
  destruct (step_speed eng payload c1) as [c2|]; [|reflexivity].
  destruct (step_rotate_outside eng payload c2 Hz) as [-> ->].
  reflexivity.
Qed.

(** C7: a rotate value outside 0, 90, 180, 270 makes the rotate step do
    nothing, exactly as rotate = 0 does: the transform chain is that of the
    same request with rotate = 0 and the answer has the same status, so the
    value is not an error.  For rotate among 90, 180, 270 a chain that
    completes has rotated the clip by that many degrees. *)
Theorem rotate_outside_table_is_no_rotation (VideoFileClip : option engine)
    (eng : engine) (w : world) (base_url stamp : string) (clip0 : clip)
    (duration : Q) (payload : RenderRequest) :
  (~ In (rotate payload) [0; 90; 180; 270]%Z ->
     (forall c, step_rotate eng payload c = Done c) /\
     transform_chain eng clip0 duration payload
     = transform_chain eng clip0 duration (set_rotate 0 payload) /\
     http_status (render_video VideoFileClip w base_url stamp payload).1
     = http_status (render_video VideoFileClip w base_url stamp
                      (set_rotate 0 payload)).1) /\
  (In (rotate payload) [90; 180; 270]%Z ->
     forall subclip,
       transform_chain eng clip0 duration payload = Done subclip ->
       In (Rotate (rotate payload)) (clip_fx subclip)).
Proof.
  split.
  - intros Hz. split; [|split].
    + intros c. apply (step_rotate_outside eng payload c Hz).
    + apply transform_chain_rotate_outside, Hz.
    + apply render_video_status_congr; try reflexivity.
      intros eng' c dur. apply transform_chain_rotate_outside, Hz.
  - intros Hz subclip Hchain.
    destruct (rotate_map_inside _ Hz) as [Hmap Hne].
    unfold transform_chain in Hchain.
    apply bind_done in Hchain as (c1 & _ & Hchain).
    apply bind_done in Hchain as (c2 & _ & Hchain).
    apply bind_done in Hchain as (c3 & Hrot & Hchain).
    apply bind_done in Hchain as (c4 & Hvol & Hres).
    unfold step_rotate in Hrot. rewrite Hmap in Hrot.
    change (default 0%Z (Some (rotate payload))) with (rotate payload) in Hrot.
    apply Z.eqb_neq in Hne. rewrite Hne in Hrot; cbn [negb] in Hrot.
    apply apply_fx_done in Hrot.
    apply step_volume_extends in Hvol as [l4 Hvol].
    apply step_resize_extends in Hres as [l5 Hres].
    rewrite Hres, Hvol, Hrot. rewrite !in_app_iff. left; left; right. left. reflexivity.
Qed.

Lemma rotate_outside_table_is_no_rotation_witness :
  ~ In (rotate Fixtures.rot45_req) [0; 90; 180; 270]%Z /\
  transform_chain Fixtures.lenient_engine (Clip Fixtures.clip_path1 []) 10
    Fixtures.rot45_req
  = transform_chain Fixtures.lenient_engine (Clip Fixtures.clip_path1 []) 10
      (set_rotate 0 Fixtures.rot45_req) /\
  http_status (render_video (Some Fixtures.lenient_engine) Fixtures.w1 Fixtures.base
                 Fixtures.stamp1 Fixtures.rot45_req).1 = 200%Z /\
  In (rotate Fixtures.rot90_req) [90; 180; 270]%Z /\
  transform_chain Fixtures.lenient_engine (Clip Fixtures.clip_path1 []) 10
    Fixtures.rot90_req
  = Done (Clip Fixtures.clip_path1 [Subclip 0 10; Rotate 90; Volumex 1]) /\
  In (Rotate 90) [Subclip 0 10; Rotate 90; Volumex 1].
Proof.
  assert (H45 : ~ In (rotate Fixtures.rot45_req) [0; 90; 180; 270]%Z).
  { simpl. intros [H|[H|[H|[H|[]]]]]; discriminate H. }
  assert (H90 : In (rotate Fixtures.rot90_req) [90; 180; 270]%Z) by (left; reflexivity).
  assert (Hrun : transform_chain Fixtures.lenient_engine (Clip Fixtures.clip_path1 []) 10
                   Fixtures.rot90_req
                 = Done (Clip Fixtures.clip_path1 [Subclip 0 10; Rotate 90; Volumex 1]))
    by (vm_compute; reflexivity).
  pose proof (rotate_outside_table_is_no_rotation (Some Fixtures.lenient_engine)
                Fixtures.lenient_engine Fixtures.w1 Fixtures.base Fixtures.stamp1
                (Clip Fixtures.clip_path1 []) 10 Fixtures.rot45_req) as [Hout _].
  pose proof (rotate_outside_table_is_no_rotation (Some Fixtures.lenient_engine)
                Fixtures.lenient_engine Fixtures.w1 Fixtures.base Fixtures.stamp1
                (Clip Fixtures.clip_path1 []) 10 Fixtures.rot90_req) as [_ Hin].
  destruct (Hout H45) as (_ & Hchain & _).
  split; [exact H45|]. split; [exact Hchain|]. split; [vm_compute; reflexivity|].
  split; [exact H90|]. split; [exact Hrun|].
  exact (Hin H90 _ Hrun).
Defined.

(** ** Upload: classification by content type *)

Lemma startswith_head (ct : string) (a : Ascii.ascii) (p : string) :
  startswith ct (String a p) = true -> exists t, ct = String a t.
Proof.
  unfold startswith. destruct ct as [|b t]; simpl; [discriminate|].
  destruct (Ascii.ascii_dec a b) as [->|]; [|discriminate].
  intros _. exists t. reflexivity.
Qed.

Lemma classify_video (ct : string) :
  startswith ct "video/" = true -> classify ct = KVideo.
Proof. intros H. unfold classify. rewrite H. reflexivity. Qed.

Lemma classify_audio (ct : string) :
  startswith ct "audio/" = true -> classify ct = KAudio.
Proof.
  intros H. unfold classify. rewrite H.
  destruct (startswith_head _ _ _ H) as [t ->]. reflexivity.
Qed.

Lemma classify_image (ct : string) :
  startswith ct "image/" = true -> classify ct = KImage.
Proof.
  intros H. unfold classify. rewrite H.
  destruct (startswith_head _ _ _ H) as [t ->]. reflexivity.
Qed.

Lemma classify_other (ct : string) :
  startswith ct "video/" = false -> startswith ct "audio/" = false ->
  startswith ct "image/" = false -> classify ct = KOther.
Proof. intros Hv Ha Hi. unfold classify. rewrite Hv, Ha, Hi. reflexivity. Qed.

Lemma classify_by_prefix (ct k : string) :
  In k ["video"; "audio"; "image"] -> startswith ct (k ++ "/") = true ->
  classify ct <> KOther /\ kind_name (classify ct) = k.
Proof.
  intros [<-|[<-|[<-|[]]]] H.
  - rewrite (classify_video _ H). split; [discriminate | reflexivity].
  - rewrite (classify_audio _ H). split; [discriminate | reflexivity].
  - rewrite (classify_image _ H). split; [discriminate | reflexivity].
Qed.

(** What an accepted upload returns and stores. *)
Lemma upload_asset_accepted (VideoFileClip : option engine) (w : world)
    (base_url stamp pid : string) (file : UploadFile) (ct : string) :
  content_type file = Some ct -> classify ct <> KOther ->
  let fname := stamp ++ "_" ++ filename file in
  let save_path := path_join UPLOAD_DIR fname in
  let doc :=
    asset_doc_of pid file save_path
      (rstrip_slash base_url ++ "/static/uploads/" ++ fname)
      (classify ct) (probe VideoFileClip (classify ct) save_path) in
  upload_asset VideoFileClip w base_url stamp pid file
  = (Ok (<["id" := VStr (create_document (w_db w) "asset" doc).1]> (delete "path" doc)),
     {| w_db := (create_document (w_db w) "asset" doc).2;
        w_fs := {[save_path]} ∪ w_fs w |}).
Proof.
  intros Hct Hk. unfold upload_asset. rewrite Hct.
  destruct (classify ct); try reflexivity. destruct (Hk eq_refl).
Qed.

(** When the upload is written to disk, the handler is [upload_asset]. *)
Lemma upload_asset_io_saved (disk : string -> write_result)
    (VideoFileClip : option engine) (w : world)
    (base_url stamp pid : string) (file : UploadFile) :
  disk (save_path_of stamp file) = WOk ->
  upload_asset_io disk VideoFileClip w base_url stamp pid file
  = upload_asset VideoFileClip w base_url stamp pid file.
Proof.
  intros Hdisk. unfold upload_asset_io, upload_asset, save_path_of in *.
  destruct (content_type file) as [ct|]; [|reflexivity].
  cbv zeta. rewrite Hdisk. destruct (classify ct); reflexivity.
Qed.

(** When writing the upload raises, an upload of an accepted type is
    answered 500 and nothing is stored. *)
Lemma upload_asset_io_unsaved (disk : string -> write_result)
    (VideoFileClip : option engine) (w : world)
    (base_url stamp pid : string) (file : UploadFile) (ct msg : string)
    (partial : bool) :
  content_type file = Some ct -> classify ct <> KOther ->
  disk (save_path_of stamp file) = WRaised msg partial ->
  upload_asset_io disk VideoFileClip w base_url stamp pid file
  = (HTTPError 500 "Internal Server Error",
     {| w_db := w_db w;
        w_fs := if partial then {[save_path_of stamp file]} ∪ w_fs w else w_fs w |}).
Proof.
  intros Hct Hk Hdisk. unfold upload_asset_io, save_path_of in *.
  rewrite Hct. cbv zeta. rewrite Hdisk.
  destruct (classify ct); try reflexivity. destruct (Hk eq_refl).
Qed.

(** C8: the kind of an upload follows its content type: one that starts
    with "video/", "audio/" or "image/" gives the corresponding kind, and
    once the file is written to disk the upload is accepted and the record
    returned and stored has that kind (when writing the file raises, the
    answer is 500 and no record is stored).  An upload with no content type
    or with any other one is answered 400 with a message naming the
    unsupported type, and the server state is left as it was: no asset
    record is created. *)
Theorem upload_kind_by_content_type_prefix (disk : string -> write_result)
    (VideoFileClip : option engine)
    (w : world) (base_url stamp pid : string) (file : UploadFile) :
  (forall ct k,
     content_type file = Some ct ->
     In k ["video"; "audio"; "image"] ->
     startswith ct (k ++ "/") = true ->
     kind_name (classify ct) = k /\
     (disk (save_path_of stamp file) = WOk ->
      exists resp w' rec,
        upload_asset_io disk VideoFileClip w base_url stamp pid file = (Ok resp, w') /\
        resp !! "kind" = Some (VStr k) /\
        doc_fields rec !! "kind" = Some (VStr k) /\
        collection (w_db w') "asset" = (collection (w_db w) "asset" ++ [rec])%list) /\
     (forall msg partial,
        disk (save_path_of stamp file) = WRaised msg partial ->
        exists w',
          upload_asset_io disk VideoFileClip w base_url stamp pid file
          = (HTTPError 500 "Internal Server Error", w') /\
          w_db w' = w_db w)) /\
  (content_type file = None \/
   (exists ct, content_type file = Some ct /\
               startswith ct "video/" = false /\
               startswith ct "audio/" = false /\
               startswith ct "image/" = false) ->
   exists detail,
     upload_asset_io disk VideoFileClip w base_url stamp pid file
     = (HTTPError 400 detail, w) /\
     (detail = "Unsupported file type" \/
      detail = "Only video/audio/image files are supported")).
Proof.
  split.
  - intros ct k Hct Hk Hpre.
    destruct (classify_by_prefix ct k Hk Hpre) as [Hne Hname].
    split; [exact Hname|]. split.
    + intros Hdisk. rewrite (upload_asset_io_saved _ _ _ _ _ _ _ Hdisk).
      rewrite (upload_asset_accepted _ w base_url stamp pid file ct Hct Hne).
      do 3 eexists. split; [reflexivity|].
      split; [|split; [|apply collection_create_same]].
      * rewrite <- Hname. reflexivity.
      * rewrite <- Hname. reflexivity.
    + intros msg partial Hdisk.
      rewrite (upload_asset_io_unsaved _ _ _ _ _ _ _ _ _ _ Hct Hne Hdisk).
      eexists. split; reflexivity.
  - intros [Hnone | (ct & Hct & Hv & Ha & Hi)]; unfold upload_asset_io.
    + rewrite Hnone. eexists. split; [reflexivity | left; reflexivity].
    + rewrite Hct, (classify_other ct Hv Ha Hi).
      eexists. split; [reflexivity | right; reflexivity].
Qed.

Lemma upload_kind_by_content_type_prefix_witness :
  (content_type Fixtures.video_file = Some "video/mp4" /\
   In "video" ["video"; "audio"; "image"] /\
   startswith "video/mp4" ("video" ++ "/") = true /\
   good_disk (save_path_of Fixtures.stamp1 Fixtures.video_file) = WOk) /\
  (exists resp w' rec,
     upload_asset_io good_disk (Some Fixtures.lenient_engine) Fixtures.w_empty
       Fixtures.base Fixtures.stamp1 "p1" Fixtures.video_file = (Ok resp, w') /\
     resp !! "kind" = Some (VStr "video") /\
     doc_fields rec !! "kind" = Some (VStr "video") /\
     collection (w_db w') "asset"
     = (collection (w_db Fixtures.w_empty) "asset" ++ [rec])%list) /\
  (no_such_directory (save_path_of Fixtures.stamp1 (mkUploadFile (Some "video/mp4") "a/b.mp4"))
   = WRaised "No such file or directory" false /\
   exists w',
     upload_asset_io no_such_directory (Some Fixtures.lenient_engine) Fixtures.w_empty
       Fixtures.base Fixtures.stamp1 "p1" (mkUploadFile (Some "video/mp4") "a/b.mp4")
     = (HTTPError 500 "Internal Server Error", w') /\
     w_db w' = w_db Fixtures.w_empty) /\
  (exists ct, content_type Fixtures.pdf_file = Some ct /\
              startswith ct "video/" = false /\
              startswith ct "audio/" = false /\
              startswith ct "image/" = false) /\
  (exists detail,
     upload_asset_io good_disk (Some Fixtures.lenient_engine) Fixtures.w_empty
       Fixtures.base Fixtures.stamp1 "p1" Fixtures.pdf_file
     = (HTTPError 400 detail, Fixtures.w_empty) /\
     (detail = "Unsupported file type" \/
      detail = "Only video/audio/image files are supported")).
Proof.
  pose proof (upload_kind_by_content_type_prefix good_disk (Some Fixtures.lenient_engine)
                Fixtures.w_empty Fixtures.base Fixtures.stamp1 "p1" Fixtures.video_file)
    as [Hok _].
  pose proof (upload_kind_by_content_type_prefix no_such_directory
                (Some Fixtures.lenient_engine) Fixtures.w_empty Fixtures.base
                Fixtures.stamp1 "p1" (mkUploadFile (Some "video/mp4") "a/b.mp4"))
    as [Hbad _].
  pose proof (upload_kind_by_content_type_prefix good_disk (Some Fixtures.lenient_engine)
                Fixtures.w_empty Fixtures.base Fixtures.stamp1 "p1" Fixtures.pdf_file)
    as [_ Hrej].
  assert (H1 : content_type Fixtures.video_file = Some "video/mp4") by reflexivity.
  assert (H2 : In "video" ["video"; "audio"; "image"]) by (left; reflexivity).
  assert (H3 : startswith "video/mp4" ("video" ++ "/") = true) by reflexivity.
  assert (H4 : exists ct, content_type Fixtures.pdf_file = Some ct /\
                          startswith ct "video/" = false /\
                          startswith ct "audio/" = false /\
                          startswith ct "image/" = false).
  { exists "application/pdf". repeat split; reflexivity. }
  assert (H5 : good_disk (save_path_of Fixtures.stamp1 Fixtures.video_file) = WOk)
    by reflexivity.
  assert (H6 : no_such_directory
                 (save_path_of Fixtures.stamp1 (mkUploadFile (Some "video/mp4") "a/b.mp4"))
               = WRaised "No such file or directory" false) by reflexivity.
  split; [split; [exact H1 | split; [exact H2 | split; [exact H3 | exact H5]]]|].
  split; [exact (proj1 (proj2 (Hok _ _ H1 H2 H3)) H5)|].
  split; [split; [exact H6 | exact (proj2 (proj2 (Hbad _ _ eq_refl H2 H3)) _ _ H6)]|].
  split; [exact H4 | exact (Hrej (or_intror H4))].
Defined.

(** ** Upload: a failing metadata probe *)

Lemma probe_open_raises (eng : engine) (kind : asset_kind) (save_path msg : string) :
  eng_open eng save_path = Raised msg ->
  probe (Some eng) kind save_path = (None, None, None).
Proof. intros H. unfold probe. rewrite H. destruct kind; reflexivity. Qed.

(** C9: when the engine cannot open a video that has been uploaded and
    written to disk, the upload is still accepted: the answer is the asset
    record, of kind "video", with duration, width and height all [None],
    the same record is stored, and the answer and resulting state are
    those of an upload handled without any probing. *)
Theorem upload_survives_probe_failure (disk : string -> write_result)
    (eng : engine) (w : world)
    (base_url stamp pid : string) (file : UploadFile) (ct msg : string) :
  content_type file = Some ct ->
  startswith ct "video/" = true ->
  disk (save_path_of stamp file) = WOk ->
  eng_open eng (save_path_of stamp file) = Raised msg ->
  exists resp w' rec,
    upload_asset_io disk (Some eng) w base_url stamp pid file = (Ok resp, w') /\
    resp !! "kind" = Some (VStr "video") /\
    (resp !! "duration" = Some VNone /\
     resp !! "width" = Some VNone /\
     resp !! "height" = Some VNone) /\
    collection (w_db w') "asset" = (collection (w_db w) "asset" ++ [rec])%list /\
    (doc_fields rec !! "duration" = Some VNone /\
     doc_fields rec !! "width" = Some VNone /\
     doc_fields rec !! "height" = Some VNone) /\
    upload_asset_io disk None w base_url stamp pid file = (Ok resp, w').
Proof.
  intros Hct Hpre Hdisk Hopen. unfold save_path_of in Hopen.
  assert (Hk : classify ct <> KOther) by (rewrite (classify_video _ Hpre); discriminate).
  rewrite !(upload_asset_io_saved _ _ _ _ _ _ _ Hdisk).
  rewrite !(upload_asset_accepted _ w base_url stamp pid file ct Hct Hk).
  rewrite (probe_open_raises _ _ _ _ Hopen), (classify_video _ Hpre).
  do 3 eexists. split; [reflexivity|].
  split; [reflexivity|]. split; [repeat split|].
  split; [apply collection_create_same|].
  split; [repeat split | reflexivity].
Qed.

Lemma upload_survives_probe_failure_witness :
  content_type Fixtures.video_file = Some "video/mp4" /\
  startswith "video/mp4" "video/" = true /\
  good_disk (save_path_of Fixtures.stamp1 Fixtures.video_file) = WOk /\
  eng_open Fixtures.blind_engine (save_path_of Fixtures.stamp1 Fixtures.video_file)
  = Raised "could not read file" /\
  exists resp w' rec,
    upload_asset_io good_disk (Some Fixtures.blind_engine) Fixtures.w_empty Fixtures.base
      Fixtures.stamp1 "p1" Fixtures.video_file = (Ok resp, w') /\
    resp !! "kind" = Some (VStr "video") /\
    (resp !! "duration" = Some VNone /\
     resp !! "width" = Some VNone /\
     resp !! "height" = Some VNone) /\
    collection (w_db w') "asset"
    = (collection (w_db Fixtures.w_empty) "asset" ++ [rec])%list /\
    (doc_fields rec !! "duration" = Some VNone /\
     doc_fields rec !! "width" = Some VNone /\
     doc_fields rec !! "height" = Some VNone) /\
    upload_asset_io good_disk None Fixtures.w_empty Fixtures.base Fixtures.stamp1 "p1"
      Fixtures.video_file = (Ok resp, w').
Proof.
  assert (H1 : content_type Fixtures.video_file = Some "video/mp4") by reflexivity.
  assert (H2 : startswith "video/mp4" "video/" = true) by reflexivity.
  assert (H3 : good_disk (save_path_of Fixtures.stamp1 Fixtures.video_file) = WOk)
    by reflexivity.
  assert (H4 : eng_open Fixtures.blind_engine
                 (save_path_of Fixtures.stamp1 Fixtures.video_file)
               = Raised "could not read file") by reflexivity.
  split; [exact H1|]. split; [exact H2|]. split; [exact H3|]. split; [exact H4|].
  exact (upload_survives_probe_failure good_disk Fixtures.blind_engine Fixtures.w_empty
           Fixtures.base Fixtures.stamp1 "p1" Fixtures.video_file "video/mp4"
           "could not read file" H1 H2 H3 H4).
Defined.

(** * Further properties of the handlers *)

(** ** Shape of the transform chain *)

Lemma apply_fx_path (eng : engine) (c c' : clip) (f : fx) :
  apply_fx eng c f = Done c' -> clip_path c' = clip_path c.
Proof.
  unfold apply_fx. destruct (eng_fx_raises eng c f); [discriminate|].
  intros [= <-]. reflexivity.
Qed.

Lemma maybe_fx_shape (eng : engine) (b : bool) (c c' : clip) (f : fx) :
  (if b then apply_fx eng c f else mret c) = Done c' ->
  clip_path c' = clip_path c /\
  clip_fx c' = (clip_fx c ++ (if b then [f] else []))%list.
Proof.
  destruct b.
  - intros H. split; [exact (apply_fx_path _ _ _ _ H) | exact (apply_fx_done _ _ _ _ H)].
  - intros [= <-]. split; [reflexivity | symmetry; apply app_nil_r].
Qed.

Lemma step_trim_shape (eng : engine) (payload : RenderRequest) (duration : Q)
    (c c' : clip) :
  step_trim eng payload duration c = Done c' ->
  clip_path c' = clip_path c /\
  clip_fx c'
  = (clip_fx c ++ [Subclip (resolve_trim payload duration).1
                           (resolve_trim payload duration).2])%list.
Proof.
  unfold step_trim. destruct (resolve_trim payload duration) as [s e]. intros H.
  split; [exact (apply_fx_path _ _ _ _ H) | exact (apply_fx_done _ _ _ _ H)].
Qed.

Lemma step_speed_shape (eng : engine) (payload : RenderRequest) (c c' : clip) :
  step_speed eng payload c = Done c' ->
  clip_path c' = clip_path c /\ clip_fx c' = (clip_fx c ++ speed_fx payload)%list.
Proof.
  unfold step_speed, speed_fx. intros H. apply maybe_fx_shape in H as [Hp Hf].
  split; [exact Hp|]. rewrite Hf. destruct (_ && _); reflexivity.
Qed.

Lemma step_rotate_shape (eng : engine) (payload : RenderRequest) (c c' : clip) :
  step_rotate eng payload c = Done c' ->
  clip_path c' = clip_path c /\ clip_fx c' = (clip_fx c ++ rotate_fx payload)%list.
Proof.
  unfold step_rotate, rotate_fx. intros H. apply maybe_fx_shape in H as [Hp Hf].
  split; [exact Hp|]. rewrite Hf. destruct (negb _); reflexivity.
Qed.

Lemma step_volume_shape (eng : engine) (payload : RenderRequest) (c c' : clip) :
  step_volume eng payload c = Done c' ->
  clip_path c' = clip_path c /\
  clip_fx c' = (clip_fx c ++ volume_fx (eng_audio eng c) payload)%list.
Proof.
  unfold step_volume, volume_fx. intros H. apply maybe_fx_shape in H as [Hp Hf].
  split; [exact Hp|]. rewrite Hf. destruct (eng_audio eng c); reflexivity.
Qed.

Lemma step_resize_shape (eng : engine) (payload : RenderRequest) (c c' : clip) :
  step_resize eng payload c = Done c' ->
  clip_path c' = clip_path c /\ clip_fx c' = (clip_fx c ++ resize_fx payload)%list.
Proof.
  unfold step_resize, resize_fx.
  destruct (resolution_width payload) as [wd|], (resolution_height payload) as [ht|];
    try (intros [= <-]; split; [reflexivity | symmetry; apply app_nil_r]).
  intros H. apply maybe_fx_shape in H as [Hp Hf].
  split; [exact Hp|]. rewrite Hf. destruct (_ && _); reflexivity.
Qed.

(** The effects of a completed chain, step by step; [c] is the clip whose
    audio track the volume step looks at. *)
Lemma transform_chain_shape (eng : engine) (clip0 : clip) (duration : Q)
    (payload : RenderRequest) (subclip : clip) :
  transform_chain eng clip0 duration payload = Done subclip ->
  exists c,
    clip_path subclip = clip_path clip0 /\
    clip_fx subclip
    = (clip_fx clip0
       ++ Subclip (resolve_trim payload duration).1 (resolve_trim payload duration).2
       :: speed_fx payload ++ rotate_fx payload
       ++ volume_fx (eng_audio eng c) payload ++ resize_fx payload)%list.
Proof.
  intros Hchain. unfold transform_chain in Hchain.
  apply bind_done in Hchain as (c1 & H1 & Hchain).
  apply bind_done in Hchain as (c2 & H2 & Hchain).
  apply bind_done in Hchain as (c3 & H3 & Hchain).
  apply bind_done in Hchain as (c4 & H4 & H5).
  apply step_trim_shape in H1 as [P1 F1].
  apply step_speed_shape in H2 as [P2 F2].
  apply step_rotate_shape in H3 as [P3 F3].
  apply step_volume_shape in H4 as [P4 F4].
  apply step_resize_shape in H5 as [P5 F5].
  exists c3. split; [congruence|].
  rewrite F5, F4, F3, F2, F1. rewrite <- !app_assoc. reflexivity.
Qed.

(** X1: the effects a completed chain has asked of the engine come in the
    fixed order trim, speed, rotate, volume, resize, each at most once, the
    trim always present and first, on the clip of the same source file. *)
Theorem transform_chain_fixed_order (eng : engine) (clip0 : clip) (duration : Q)
    (payload : RenderRequest) (subclip : clip) :
  transform_chain eng clip0 duration payload = Done subclip ->
  exists l,
    clip_path subclip = clip_path clip0 /\
    clip_fx subclip
    = (clip_fx clip0
       ++ Subclip (resolve_trim payload duration).1 (resolve_trim payload duration).2
       :: l)%list /\
    StronglySorted lt
      (List.map stage
         (Subclip (resolve_trim payload duration).1 (resolve_trim payload duration).2
          :: l)).
Proof.
  intros Hchain. apply transform_chain_shape in Hchain as (c & Hp & Hf).
  eexists. split; [exact Hp|]. split; [exact Hf|].
  unfold speed_fx, rotate_fx, volume_fx, resize_fx.
  destruct (truthy (speed payload) && _), (negb (Z.eqb _ 0)), (eng_audio eng c),
    (resolution_width payload) as [wd|], (resolution_height payload) as [ht|];
    try destruct (negb (Z.eqb wd 0) && _);
    simpl; repeat constructor.
Qed.

Lemma transform_chain_fixed_order_witness :
  transform_chain Fixtures.lenient_engine MoreFixtures.start_clip 10
    Fixtures.scenario_req
  = Done (Clip Fixtures.clip_path1 [Subclip 2 8; Speedx 2; Rotate 90; Volumex (1 # 2)]) /\
  exists l,
    [Subclip 2 8; Speedx 2; Rotate 90; Volumex (1 # 2)]
    = Subclip (resolve_trim Fixtures.scenario_req 10).1
              (resolve_trim Fixtures.scenario_req 10).2 :: l /\
    StronglySorted lt
      (List.map stage
         (Subclip (resolve_trim Fixtures.scenario_req 10).1
                  (resolve_trim Fixtures.scenario_req 10).2 :: l)).
Proof.
  assert (Hrun : transform_chain Fixtures.lenient_engine MoreFixtures.start_clip 10
                   Fixtures.scenario_req
                 = Done (Clip Fixtures.clip_path1
                           [Subclip 2 8; Speedx 2; Rotate 90; Volumex (1 # 2)]))
    by (vm_compute; reflexivity).
  split; [exact Hrun|].
  destruct (transform_chain_fixed_order _ _ _ _ _ Hrun) as (l & _ & Hf & Hs).
  exists l. split; [exact Hf | exact Hs].
Defined.

(** ** Speed and volume steps *)

Lemma in_speed_fx (f : fx) (payload : RenderRequest) :
  In f (speed_fx payload) ->
  f = Speedx (speed payload) /\
  truthy (speed payload) && negb (Qeq_bool (speed payload) 1) = true.
Proof.
  unfold speed_fx. destruct (_ && _); [|intros []].
  intros [<-|[]]. split; reflexivity.
Qed.

Lemma in_rotate_fx (f : fx) (payload : RenderRequest) :
  In f (rotate_fx payload) -> exists r, f = Rotate r.
Proof.
  unfold rotate_fx. destruct (negb _); [|intros []].
  intros [<-|[]]. eexists; reflexivity.
Qed.

Lemma in_volume_fx (f : fx) (audio : bool) (payload : RenderRequest) :
  In f (volume_fx audio payload) ->
  f = Volumex (Qmax 0 (volume payload)) /\ audio = true.
Proof.
  unfold volume_fx. destruct audio; [|intros []].
  intros [<-|[]]. split; reflexivity.
Qed.

Lemma in_resize_fx (f : fx) (payload : RenderRequest) :
  In f (resize_fx payload) -> exists width height, f = Resize width height.
Proof.
  unfold resize_fx.
  destruct (resolution_width payload), (resolution_height payload); try intros [].
  destruct (_ && _); [|intros []].
  intros [<-|[]]. do 2 eexists; reflexivity.
Qed.

(** Where an effect of a completed chain on a fresh clip comes from. *)
Lemma in_chain_fx (eng : engine) (path : string) (duration : Q)
    (payload : RenderRequest) (subclip : clip) (f : fx) :
  transform_chain eng (Clip path []) duration payload = Done subclip ->
  In f (clip_fx subclip) ->
  exists c,
    f = Subclip (resolve_trim payload duration).1 (resolve_trim payload duration).2 \/
    In f (speed_fx payload) \/ In f (rotate_fx payload) \/
    In f (volume_fx (eng_audio eng c) payload) \/ In f (resize_fx payload).
Proof.
  intros Hchain Hin. apply transform_chain_shape in Hchain as (c & _ & Hf).
  rewrite Hf in Hin. cbn [clip_fx app] in Hin. exists c.
  destruct Hin as [<-|Hin]; [left; reflexivity|].
  rewrite !in_app_iff in Hin. tauto.
Qed.

(** X2: whatever volume is requested, the factor handed to the engine is
    max(0, volume): a negative volume is applied as 0 and never reaches the
    engine. *)
Theorem volume_factor_is_never_negative (eng : engine) (path : string)
    (duration : Q) (payload : RenderRequest) (subclip : clip) (f : Q) :
  transform_chain eng (Clip path []) duration payload = Done subclip ->
  In (Volumex f) (clip_fx subclip) ->
  f = Qmax 0 (volume payload) /\ (0 <= f)%Q.
Proof.
  intros Hchain Hin.
  destruct (in_chain_fx _ _ _ _ _ _ Hchain Hin) as (c & [H|[H|[H|[H|H]]]]).
  - discriminate H.
  - apply in_speed_fx in H as [H _]. discriminate H.
  - apply in_rotate_fx in H as [r H]. discriminate H.
  - apply in_volume_fx in H as [[= ->] _]. split; [reflexivity | apply Q.le_max_l].
  - apply in_resize_fx in H as (wd & ht & H). discriminate H.
Qed.

Lemma volume_factor_is_never_negative_witness :
  transform_chain Fixtures.lenient_engine MoreFixtures.start_clip 10 MoreFixtures.odd_req
  = Done (Clip Fixtures.clip_path1 [Subclip 0 (-(2)); Volumex 0]) /\
  In (Volumex 0) [Subclip 0 (-(2)); Volumex 0] /\
  0%Q = Qmax 0 (volume MoreFixtures.odd_req) /\ (0 <= 0)%Q.
Proof.
  assert (Hrun : transform_chain Fixtures.lenient_engine MoreFixtures.start_clip 10
                   MoreFixtures.odd_req
                 = Done (Clip Fixtures.clip_path1 [Subclip 0 (-(2)); Volumex 0]))
    by (vm_compute; reflexivity).
  assert (Hin : In (Volumex 0) [Subclip 0 (-(2)); Volumex 0]) by (right; left; reflexivity).
  split; [exact Hrun|]. split; [exact Hin|].
  exact (volume_factor_is_never_negative _ _ _ _ _ _ Hrun Hin).
Defined.

(** X3: the volume effect is asked for exactly when the clip carries
    audio, whatever the requested volume (1.0 included); on a source
    without audio the step is skipped without error. *)
Theorem volume_step_follows_audio (eng : engine) (path : string)
    (duration : Q) (payload : RenderRequest) (subclip : clip) :
  transform_chain eng (Clip path []) duration payload = Done subclip ->
  ((forall c, eng_audio eng c = false) ->
   forall f, ~ In (Volumex f) (clip_fx subclip)) /\
  ((forall c, eng_audio eng c = true) ->
   In (Volumex (Qmax 0 (volume payload))) (clip_fx subclip)).
Proof.
  intros Hchain. split.
  - intros Hsilent f Hin.
    destruct (in_chain_fx _ _ _ _ _ _ Hchain Hin) as (c & [H|[H|[H|[H|H]]]]).
    + discriminate H.
    + apply in_speed_fx in H as [H _]. discriminate H.
    + apply in_rotate_fx in H as [r H]. discriminate H.
    + apply in_volume_fx in H as [_ H]. rewrite Hsilent in H. discriminate H.
    + apply in_resize_fx in H as (wd & ht & H). discriminate H.
  - intros Haudio. apply transform_chain_shape in Hchain as (c & _ & Hf).
    rewrite Hf, Haudio. cbn [clip_fx app]. apply in_cons.
    apply in_or_app; right. apply in_or_app; right. apply in_or_app; left.
    left. reflexivity.
Qed.

Lemma volume_step_follows_audio_witness :
  transform_chain MoreFixtures.silent_engine MoreFixtures.start_clip 10
    Fixtures.scenario_req
  = Done (Clip Fixtures.clip_path1 [Subclip 2 8; Speedx 2; Rotate 90]) /\
  (forall c, eng_audio MoreFixtures.silent_engine c = false) /\
  (forall f, ~ In (Volumex f) [Subclip 2 8; Speedx 2; Rotate 90]).
Proof.
  assert (Hrun : transform_chain MoreFixtures.silent_engine MoreFixtures.start_clip 10
                   Fixtures.scenario_req
                 = Done (Clip Fixtures.clip_path1 [Subclip 2 8; Speedx 2; Rotate 90]))
    by (vm_compute; reflexivity).
  assert (Hs : forall c, eng_audio MoreFixtures.silent_engine c = false)
    by (intros c; reflexivity).
  split; [exact Hrun|]. split; [exact Hs|].
  exact (proj1 (volume_step_follows_audio _ _ _ _ _ Hrun) Hs).
Defined.

(** X4: a speed of 0 or of 1 leaves the speed step out; any other speed,
    negative ones included, is handed to the engine as it is. *)
Theorem speed_step_skips_zero_and_one (eng : engine) (path : string)
    (duration : Q) (payload : RenderRequest) (subclip : clip) :
  transform_chain eng (Clip path []) duration payload = Done subclip ->
  ((speed payload == 0)%Q \/ (speed payload == 1)%Q ->
   forall f, ~ In (Speedx f) (clip_fx subclip)) /\
  (~ (speed payload == 0)%Q -> ~ (speed payload == 1)%Q ->
   In (Speedx (speed payload)) (clip_fx subclip)).
Proof.
  intros Hchain. split.
  - intros Hs f Hin.
    destruct (in_chain_fx _ _ _ _ _ _ Hchain Hin) as (c & [H|[H|[H|[H|H]]]]).
    + discriminate H.
    + apply in_speed_fx in H as [_ H]. apply andb_true_iff in H as [H0 H1].
      destruct Hs as [Hs|Hs].
      * apply truthy_false in Hs. congruence.
      * apply Qeq_bool_iff in Hs. rewrite Hs in H1. discriminate H1.
    + apply in_rotate_fx in H as [r H]. discriminate H.
    + apply in_volume_fx in H as [H _]. discriminate H.
    + apply in_resize_fx in H as (wd & ht & H). discriminate H.
  - intros H0 H1. apply transform_chain_shape in Hchain as (c & _ & Hf).
    rewrite Hf. cbn [clip_fx app]. apply in_cons. apply in_or_app; left.
    unfold speed_fx.
    destruct (truthy (speed payload)) eqn:Ht;
      [|apply truthy_false in Ht; contradiction].
    destruct (Qeq_bool (speed payload) 1) eqn:Hq;
      [apply Qeq_bool_iff in Hq; contradiction|].
    left. reflexivity.
Qed.

Lemma speed_step_skips_zero_and_one_witness :
  transform_chain Fixtures.lenient_engine MoreFixtures.start_clip 10 MoreFixtures.odd_req
  = Done (Clip Fixtures.clip_path1 [Subclip 0 (-(2)); Volumex 0]) /\
  ((speed MoreFixtures.odd_req == 0)%Q \/ (speed MoreFixtures.odd_req == 1)%Q) /\
  (forall f, ~ In (Speedx f) [Subclip 0 (-(2)); Volumex 0]).
Proof.
  assert (Hrun : transform_chain Fixtures.lenient_engine MoreFixtures.start_clip 10
                   MoreFixtures.odd_req
                 = Done (Clip Fixtures.clip_path1 [Subclip 0 (-(2)); Volumex 0]))
    by (vm_compute; reflexivity).
  assert (Hs : (speed MoreFixtures.odd_req == 0)%Q \/ (speed MoreFixtures.odd_req == 1)%Q)
    by (left; reflexivity).
  split; [exact Hrun|]. split; [exact Hs|].
  exact (proj1 (speed_step_skips_zero_and_one _ _ _ _ _ Hrun) Hs).
Defined.

(** ** An explicit end *)

(** X5: an explicit, non-zero end that does not exceed the source
    duration is used as given, a negative one included; one beyond the
    duration is replaced by the duration. *)
Theorem explicit_end_is_kept_or_capped (payload : RenderRequest) (duration e : Q) :
  end_ payload = Some e -> ~ (e == 0)%Q ->
  ((e <= duration)%Q -> (resolve_trim payload duration).2 = e) /\
  ((duration < e)%Q -> (resolve_trim payload duration).2 = duration).
Proof.
  intros He Hnz. unfold resolve_trim; cbn [snd]. rewrite He.
  destruct (truthy e) eqn:Ht; [|apply truthy_false in Ht; contradiction].
  unfold Qmin, GenericMinMax.gmin. split.
  - intros Hle. apply Qle_alt in Hle.
    destruct (e ?= duration)%Q eqn:Hc; [reflexivity | reflexivity | destruct (Hle Hc)].
  - intros Hlt. apply Qgt_alt in Hlt. rewrite Hlt. reflexivity.
Qed.

Lemma explicit_end_is_kept_or_capped_witness :
  end_ MoreFixtures.odd_req = Some (-(2))%Q /\ ~ (-(2) == 0)%Q /\ (-(2) <= 10)%Q /\
  (resolve_trim MoreFixtures.odd_req 10).2 = (-(2))%Q.
Proof.
  assert (H1 : end_ MoreFixtures.odd_req = Some (-(2))%Q) by reflexivity.
  assert (H2 : ~ (-(2) == 0)%Q) by (vm_compute; discriminate).
  assert (H3 : (-(2) <= 10)%Q) by (vm_compute; discriminate).
  split; [exact H1|]. split; [exact H2|]. split; [exact H3|].
  exact (proj1 (explicit_end_is_kept_or_capped _ 10 _ H1 H2) H3).
Defined.

(** ** What a render answers and what it leaves behind *)

(** A successful render, taken apart. *)
Lemma render_video_ok_inv (VideoFileClip : option engine) (w : world)
    (base_url stamp : string) (payload : RenderRequest)
    (resp : gmap string value) (w' : world) :
  render_video VideoFileClip w base_url stamp payload = (Ok resp, w') ->
  exists eng d path vi subclip,
    VideoFileClip = Some eng /\
    fetch_asset (w_db w) payload = Some d /\
    source_path_of w d = Some path /\
    eng_open eng path = Done vi /\
    transform_chain eng (Clip path []) (vi_duration vi) payload = Done subclip /\
    let doc :=
      render_doc_of payload (resolve_trim payload (vi_duration vi)).1
        (resolve_trim payload (vi_duration vi)).2
        (rstrip_slash base_url ++ "/static/outputs/" ++ out_name_of stamp) in
    resp = doc ∪ {["id" := VStr (create_document (w_db w) "render" doc).1]} /\
    w' = {| w_db := (create_document (w_db w) "render" doc).2;
            w_fs := {[out_path_of stamp]} ∪ w_fs w |}.
Proof.
  unfold_render.
  destruct VideoFileClip as [eng|]; [|discriminate].
  destruct (fetch_asset (w_db w) payload) as [d|] eqn:Hd; [|discriminate].
  destruct (source_path_of w d) as [path|] eqn:Hpath; [|discriminate].
  destruct (eng_open eng path) as [vi|msg] eqn:Hopen; [|discriminate].
  destruct (resolve_trim payload (vi_duration vi)) as [s e] eqn:Ht.
  destruct (transform_chain eng _ (vi_duration vi) payload) as [subclip|msg] eqn:Hchain;
    [|discriminate].
  destruct (eng_write eng subclip (out_path_of stamp)) as [|msg partial];
    [|discriminate].
  set (doc := render_doc_of payload s e _).
  destruct (create_document (w_db w) "render" doc) as [rid db'] eqn:Hc.
  intros Heq.
  assert (Hresp : resp = doc ∪ {["id" := VStr rid]}) by congruence.
  assert (Hw : w' = {| w_db := db'; w_fs := {[out_path_of stamp]} ∪ w_fs w |})
    by congruence.
  exists eng, d, path, vi, subclip.
  split; [reflexivity|]. split; [reflexivity|]. split; [exact Hpath|].
  split; [exact Hopen|]. split; [exact Hchain|].
  subst doc. cbv zeta. rewrite Ht. cbn [fst snd]. rewrite Hc. split; assumption.
Qed.

(** The converse: nothing but a missing asset, a missing file or a raising
    engine keeps a render from succeeding. *)
Lemma render_video_ok_intro (eng : engine) (w : world)
    (base_url stamp : string) (payload : RenderRequest) (d : document)
    (path : string) (vi : video_info) (subclip : clip) :
  fetch_asset (w_db w) payload = Some d ->
  source_path_of w d = Some path ->
  eng_open eng path = Done vi ->
  transform_chain eng (Clip path []) (vi_duration vi) payload = Done subclip ->
  eng_write eng subclip (out_path_of stamp) = WOk ->
  let doc :=
    render_doc_of payload (resolve_trim payload (vi_duration vi)).1
      (resolve_trim payload (vi_duration vi)).2
      (rstrip_slash base_url ++ "/static/outputs/" ++ out_name_of stamp) in
  render_video (Some eng) w base_url stamp payload
  = (Ok (doc ∪ {["id" := VStr (create_document (w_db w) "render" doc).1]}),
     {| w_db := (create_document (w_db w) "render" doc).2;
        w_fs := {[out_path_of stamp]} ∪ w_fs w |}).
Proof.
  intros Hd Hpath Hopen Hchain Hwrite. unfold_render.
  rewrite Hd, Hpath, Hopen.
  destruct (resolve_trim payload (vi_duration vi)) as [s e].
  rewrite Hchain, Hwrite. reflexivity.
Qed.




(** X8: the answer of a successful render is the record it has just
    stored, read back with its identifier under "id": the last record of
    the render collection, as [with_id] presents it. *)
Theorem render_response_is_stored_record (VideoFileClip : option engine) (w : world)
    (base_url stamp : string) (payload : RenderRequest)
    (resp : gmap string value) (w' : world) :
  render_video VideoFileClip w base_url stamp payload = (Ok resp, w') ->
  exists rec,
    last (collection (w_db w') "render") = Some rec /\
    resp = with_id rec /\
    resp !! "id" = Some (VStr (doc_id rec)).
Proof.
  intros H. apply render_video_ok_inv in H
    as (eng & d & path & vi & subclip & _ & _ & _ & _ & _ & Hresp & Hw).
  cbv zeta in Hresp, Hw. subst w'. cbn [w_db].
  rewrite collection_create_same, last_snoc. eexists. split; [reflexivity|].
  subst resp. unfold with_id; cbn [doc_id doc_fields]. split.
  - apply map_eq. intros k. rewrite lookup_union.
    destruct (decide (k = "id")) as [->|Hk].
    + rewrite lookup_insert_eq, lookup_singleton_eq. reflexivity.
    + rewrite lookup_insert_ne, lookup_singleton_ne by congruence.
      destruct (render_doc_of _ _ _ _ !! k); reflexivity.
  - reflexivity.
Qed.

Lemma render_response_is_stored_record_witness :
  exists resp w',
    render_video (Some Fixtures.lenient_engine) Fixtures.w1 Fixtures.base
      Fixtures.stamp1 Fixtures.scenario_req = (Ok resp, w') /\
    exists rec,
      last (collection (w_db w') "render") = Some rec /\
      resp = with_id rec /\
      resp !! "id" = Some (VStr (doc_id rec)).
Proof.
  assert (Hrun : exists resp w',
             render_video (Some Fixtures.lenient_engine) Fixtures.w1 Fixtures.base
               Fixtures.stamp1 Fixtures.scenario_req = (Ok resp, w')).
  { do 2 eexists.
    apply (render_video_ok_intro Fixtures.lenient_engine Fixtures.w1
             Fixtures.base Fixtures.stamp1 Fixtures.scenario_req Fixtures.asset1
             Fixtures.clip_path1 Fixtures.info10
             (Clip Fixtures.clip_path1
                [Subclip 2 8; Speedx 2; Rotate 90; Volumex (1 # 2)]));
      vm_compute; reflexivity. }
  destruct Hrun as (resp & w' & Hrun).
  exists resp, w'. split; [exact Hrun|].
  exact (render_response_is_stored_record _ _ _ _ _ _ _ Hrun).
Defined.

(** X9: a successful render stores the bounds it resolved, not the ones
    requested, and stores speed, volume and rotate as requested, also where
    the chain used another value (a clamped volume, no rotation); its
    output_url is the base URL, without trailing slashes, followed by the
    path of the file it wrote, which exists. *)
Theorem render_record_fields (VideoFileClip : option engine) (w : world)
    (base_url stamp : string) (payload : RenderRequest)
    (resp : gmap string value) (w' : world) :
  render_video VideoFileClip w base_url stamp payload = (Ok resp, w') ->
  exists eng d path vi,
    VideoFileClip = Some eng /\
    fetch_asset (w_db w) payload = Some d /\
    source_path_of w d = Some path /\
    eng_open eng path = Done vi /\
    resp !! "start" = Some (VFloat (resolve_trim payload (vi_duration vi)).1) /\
    resp !! "end" = Some (VFloat (resolve_trim payload (vi_duration vi)).2) /\
    resp !! "speed" = Some (VFloat (speed payload)) /\
    resp !! "volume" = Some (VFloat (volume payload)) /\
    resp !! "rotate" = Some (VInt (rotate payload)) /\
    resp !! "output_url"
    = Some (VStr (rstrip_slash base_url ++ "/" ++ out_path_of stamp)) /\
    out_path_of stamp ∈ w_fs w'.
Proof.
  intros H. apply render_video_ok_inv in H
    as (eng & d & path & vi & subclip & Hbe & Hd & Hpath & Hopen & _ & Hresp & Hw).
  cbv zeta in Hresp, Hw. exists eng, d, path, vi.
  repeat (split; [assumption|]). subst resp w'.
  repeat (split; [reflexivity|]).
  cbn [w_fs]. set_solver.
Qed.

Lemma render_record_fields_witness :
  exists resp w',
    render_video (Some Fixtures.lenient_engine) Fixtures.w1 Fixtures.base
      Fixtures.stamp1 MoreFixtures.odd_req = (Ok resp, w') /\
    resp !! "volume" = Some (VFloat (volume MoreFixtures.odd_req)) /\
    resp !! "rotate" = Some (VInt (rotate MoreFixtures.odd_req)) /\
    resp !! "output_url"
    = Some (VStr (rstrip_slash Fixtures.base ++ "/" ++ out_path_of Fixtures.stamp1)) /\
    out_path_of Fixtures.stamp1 ∈ w_fs w'.
Proof.
  assert (Hrun : exists resp w',
             render_video (Some Fixtures.lenient_engine) Fixtures.w1 Fixtures.base
               Fixtures.stamp1 MoreFixtures.odd_req = (Ok resp, w')).
  { do 2 eexists.
    apply (render_video_ok_intro Fixtures.lenient_engine Fixtures.w1
             Fixtures.base Fixtures.stamp1 MoreFixtures.odd_req Fixtures.asset1
             Fixtures.clip_path1 Fixtures.info10
             (Clip Fixtures.clip_path1 [Subclip 0 (-(2)); Volumex 0]));
      vm_compute; reflexivity. }
  destruct Hrun as (resp & w' & Hrun).
  exists resp, w'. split; [exact Hrun|].
  destruct (render_record_fields _ _ _ _ _ _ _ Hrun)
    as (eng & d & path & vi & _ & _ & _ & _ & _ & _ & _ & Hvol & Hrot & Hurl & Hfile).
  split; [exact Hvol|]. split; [exact Hrot|]. split; [exact Hurl | exact Hfile].
Defined.

(** ** What an upload answers and what it leaves behind *)

Lemma upload_asset_ok_inv (VideoFileClip : option engine) (w : world)
    (base_url stamp pid : string) (file : UploadFile)
    (resp : gmap string value) (w' : world) :
  upload_asset VideoFileClip w base_url stamp pid file = (Ok resp, w') ->
  exists ct, content_type file = Some ct /\ classify ct <> KOther.
Proof.
  unfold upload_asset. destruct (content_type file) as [ct|]; [|discriminate].
  intros H. exists ct. split; [reflexivity|].
  intros Hk. rewrite Hk in H. discriminate H.
Qed.

(** The record an accepted upload stores, and the answer and state that
    go with it. *)
Lemma upload_asset_ok_shape (VideoFileClip : option engine) (w : world)
    (base_url stamp pid : string) (file : UploadFile)
    (resp : gmap string value) (w' : world) :
  upload_asset VideoFileClip w base_url stamp pid file = (Ok resp, w') ->
  exists ct doc,
    content_type file = Some ct /\ classify ct <> KOther /\
    doc = asset_doc_of pid file (save_path_of stamp file)
            (rstrip_slash base_url ++ "/static/uploads/" ++ stamp ++ "_" ++ filename file)
            (classify ct) (probe VideoFileClip (classify ct) (save_path_of stamp file)) /\
    resp = <["id" := VStr (create_document (w_db w) "asset" doc).1]> (delete "path" doc) /\
    w' = {| w_db := (create_document (w_db w) "asset" doc).2;
            w_fs := {[save_path_of stamp file]} ∪ w_fs w |}.
Proof.
  intros H. destruct (upload_asset_ok_inv _ _ _ _ _ _ _ _ H) as (ct & Hct & Hk).
  rewrite (upload_asset_accepted _ w base_url stamp pid file ct Hct Hk) in H.
  cbv zeta in H. injection H as <- <-.
  exists ct. eexists. split; [exact Hct|]. split; [exact Hk|].
  split; [reflexivity|]. split; reflexivity.
Qed.

Lemma asset_doc_path (pid : string) (file : UploadFile) (save_path url : string)
    (kind : asset_kind) (info : option Q * option Z * option Z) :
  asset_doc_of pid file save_path url kind info !! "path" = Some (VStr save_path).
Proof. reflexivity. Qed.

Lemma asset_doc_project (pid : string) (file : UploadFile) (save_path url : string)
    (kind : asset_kind) (info : option Q * option Z * option Z) :
  asset_doc_of pid file save_path url kind info !! "project_id" = Some (VStr pid).
Proof. reflexivity. Qed.

(** X11: the answer of an accepted upload is the record it has just
    stored, read back with its identifier under "id", except that the
    server path of the file is left out: the path is stored, names the file
    written to disk, and is not returned; the returned url is the base URL,
    without trailing slashes, followed by that path. *)
Theorem upload_response_hides_path (VideoFileClip : option engine) (w : world)
    (base_url stamp pid : string) (file : UploadFile)
    (resp : gmap string value) (w' : world) :
  upload_asset VideoFileClip w base_url stamp pid file = (Ok resp, w') ->
  exists rec,
    last (collection (w_db w') "asset") = Some rec /\
    resp = delete "path" (with_id rec) /\
    resp !! "id" = Some (VStr (doc_id rec)) /\
    resp !! "path" = None /\
    doc_fields rec !! "path" = Some (VStr (save_path_of stamp file)) /\
    save_path_of stamp file ∈ w_fs w' /\
    resp !! "url"
    = Some (VStr (rstrip_slash base_url ++ "/" ++ save_path_of stamp file)).
Proof.
  intros H. apply upload_asset_ok_shape in H
    as (ct & doc & _ & _ & Hdoc & -> & ->).
  cbn [w_db w_fs]. rewrite collection_create_same, last_snoc.
  eexists. split; [reflexivity|]. unfold with_id; cbn [doc_id doc_fields].
  split; [rewrite delete_insert_ne by discriminate; reflexivity|].
  split; [apply lookup_insert_eq|].
  split; [rewrite lookup_insert_ne by discriminate; apply lookup_delete_eq|].
  subst doc. split; [apply asset_doc_path|].
  split; [set_solver|]. reflexivity.
Qed.

Lemma upload_response_hides_path_witness :
  exists resp w',
    upload_asset (Some Fixtures.lenient_engine) Fixtures.w_empty Fixtures.base
      Fixtures.stamp1 "p1" Fixtures.video_file = (Ok resp, w') /\
    resp !! "path" = None /\
    save_path_of Fixtures.stamp1 Fixtures.video_file ∈ w_fs w' /\
    resp !! "url"
    = Some (VStr (rstrip_slash Fixtures.base ++ "/"
                  ++ save_path_of Fixtures.stamp1 Fixtures.video_file)).
Proof.
  assert (Hrun : exists resp w',
             upload_asset (Some Fixtures.lenient_engine) Fixtures.w_empty Fixtures.base
               Fixtures.stamp1 "p1" Fixtures.video_file = (Ok resp, w')).
  { do 2 eexists.
    apply (upload_asset_accepted (Some Fixtures.lenient_engine) Fixtures.w_empty
             Fixtures.base Fixtures.stamp1 "p1" Fixtures.video_file "video/mp4");
      [reflexivity | vm_compute; discriminate]. }
  destruct Hrun as (resp & w' & Hrun).
  exists resp, w'. split; [exact Hrun|].
  destruct (upload_response_hides_path _ _ _ _ _ _ _ _ Hrun)
    as (rec & _ & _ & _ & Hpath & _ & Hfile & Hurl).
  split; [exact Hpath|]. split; [exact Hfile | exact Hurl].
Defined.

(** X12: only videos are probed: an audio or image upload is handled
    without the engine being consulted, so its answer and the resulting
    state do not depend on the engine, whether or not the file can be
    written; once the file is written to disk, the upload is accepted and
    its duration, width and height are [None]. *)
Theorem upload_non_video_is_not_probed (disk : string -> write_result)
    (eng : engine) (w : world)
    (base_url stamp pid : string) (file : UploadFile) (ct : string) :
  content_type file = Some ct ->
  startswith ct "audio/" = true \/ startswith ct "image/" = true ->
  upload_asset_io disk (Some eng) w base_url stamp pid file
  = upload_asset_io disk None w base_url stamp pid file /\
  (disk (save_path_of stamp file) = WOk ->
   exists resp w',
     upload_asset_io disk (Some eng) w base_url stamp pid file = (Ok resp, w') /\
     resp !! "duration" = Some VNone /\
     resp !! "width" = Some VNone /\
     resp !! "height" = Some VNone).
Proof.
  intros Hct Hpre.
  assert (Hk : classify ct = KAudio \/ classify ct = KImage).
  { destruct Hpre as [H|H]; [left; apply classify_audio | right; apply classify_image];
      exact H. }
  assert (Hne : classify ct <> KOther) by (destruct Hk as [-> | ->]; discriminate).
  assert (Hprobe : forall V, probe V (classify ct) (path_join UPLOAD_DIR
                      (stamp ++ "_" ++ filename file)) = (None, None, None)).
  { intros V. destruct Hk as [-> | ->]; destruct V; reflexivity. }
  split.
  - destruct (disk (save_path_of stamp file)) as [|msg partial] eqn:Hdisk.
    + rewrite !(upload_asset_io_saved _ _ _ _ _ _ _ Hdisk).
      rewrite !(upload_asset_accepted _ w base_url stamp pid file ct Hct Hne).
      cbv zeta. rewrite !Hprobe. reflexivity.
    + rewrite !(upload_asset_io_unsaved _ _ _ _ _ _ _ _ _ _ Hct Hne Hdisk). reflexivity.
  - intros Hdisk. rewrite (upload_asset_io_saved _ _ _ _ _ _ _ Hdisk).
    rewrite (upload_asset_accepted _ w base_url stamp pid file ct Hct Hne).
    cbv zeta. rewrite Hprobe.
    do 2 eexists. split; [reflexivity|]. repeat split.
Qed.

Lemma upload_non_video_is_not_probed_witness :
  content_type (mkUploadFile (Some "image/png") "logo.png") = Some "image/png" /\
  (startswith "image/png" "audio/" = true \/ startswith "image/png" "image/" = true) /\
  good_disk (save_path_of Fixtures.stamp1 (mkUploadFile (Some "image/png") "logo.png"))
  = WOk /\
  upload_asset_io good_disk (Some Fixtures.blind_engine) Fixtures.w_empty Fixtures.base
    Fixtures.stamp1 "p1" (mkUploadFile (Some "image/png") "logo.png")
  = upload_asset_io good_disk None Fixtures.w_empty Fixtures.base
      Fixtures.stamp1 "p1" (mkUploadFile (Some "image/png") "logo.png") /\
  exists resp w',
    upload_asset_io good_disk (Some Fixtures.blind_engine) Fixtures.w_empty Fixtures.base
      Fixtures.stamp1 "p1" (mkUploadFile (Some "image/png") "logo.png") = (Ok resp, w') /\
    resp !! "duration" = Some VNone /\
    resp !! "width" = Some VNone /\
    resp !! "height" = Some VNone.
Proof.
  assert (H1 : content_type (mkUploadFile (Some "image/png") "logo.png")
               = Some "image/png") by reflexivity.
  assert (H2 : startswith "image/png" "audio/" = true \/
               startswith "image/png" "image/" = true) by (right; reflexivity).
  assert (H3 : good_disk (save_path_of Fixtures.stamp1
                            (mkUploadFile (Some "image/png") "logo.png")) = WOk)
    by reflexivity.
  destruct (upload_non_video_is_not_probed good_disk Fixtures.blind_engine
              Fixtures.w_empty Fixtures.base Fixtures.stamp1 "p1" _ _ H1 H2)
    as [Hsame Hok].
  split; [exact H1|]. split; [exact H2|]. split; [exact H3|].
  split; [exact Hsame | exact (Hok H3)].
Defined.



(** X14: an upload is answered with status 200, 400 or 500 and no other,
    and with 500 only when writing the file to disk raises; it never
    removes a file, leaves every collection other than the assets as it
    was, and stores no record at all unless it answers 200, in which case
    the file it saved is on disk. *)
Theorem upload_asset_footprint (disk : string -> write_result)
    (VideoFileClip : option engine) (w : world)
    (base_url stamp pid : string) (file : UploadFile) :
  let r := upload_asset_io disk VideoFileClip w base_url stamp pid file in
  (http_status r.1 = 200%Z \/ http_status r.1 = 400%Z \/ http_status r.1 = 500%Z) /\
  (http_status r.1 = 500%Z ->
   exists msg partial, disk (save_path_of stamp file) = WRaised msg partial) /\
  (http_status r.1 = 200%Z ->
   disk (save_path_of stamp file) = WOk /\ save_path_of stamp file ∈ w_fs r.2) /\
  (http_status r.1 <> 200%Z -> w_db r.2 = w_db w) /\
  w_fs w ⊆ w_fs r.2 /\
  (forall name, name <> "asset" ->
                collection (w_db r.2) name = collection (w_db w) name).
Proof.
  cbv zeta. unfold upload_asset_io, save_path_of.
  destruct (content_type file) as [ct|];
    [|cbn [fst snd http_status]; split; [right; left; reflexivity|];
      split; [discriminate|]; split; [discriminate|];
      split; [reflexivity|]; split; [set_solver | reflexivity]].
  destruct (classify ct);
    try (cbv zeta;
         destruct (disk (path_join UPLOAD_DIR (stamp ++ "_" ++ filename file)))
           as [|msg partial];
         [ cbn [fst snd http_status w_fs w_db]; split; [left; reflexivity|];
           split; [discriminate|]; split; [intros _; split; [reflexivity | set_solver]|];
           split; [intros H; destruct (H eq_refl)|]; split; [set_solver|];
           intros name Hne; apply collection_create_other; exact Hne
         | cbn [fst snd http_status w_fs w_db]; split; [right; right; reflexivity|];
           split; [intros _; do 2 eexists; reflexivity|]; split; [discriminate|];
           split; [reflexivity|]; split; [destruct partial; set_solver | reflexivity] ]).
  cbn [fst snd http_status]. split; [right; left; reflexivity|].
  split; [discriminate|]. split; [discriminate|].
  split; [reflexivity|]. split; [set_solver | reflexivity].
Qed.

(** ** Uploads, listings and renders together *)

Lemma find_none_app {A} (f : A -> bool) (l l' : list A) :
  (forall x, In x l -> f x = false) -> List.find f (l ++ l') = List.find f l'.
Proof.
  induction l as [|a l IH]; intros H; [reflexivity|].
  cbn [app List.find]. rewrite (H a (or_introl eq_refl)).
  apply IH. intros x Hx. apply H. right. exact Hx.
Qed.

Lemma render_try_status (eng : engine) (w : world) (base_url stamp : string)
    (payload : RenderRequest) (path : string) :
  http_status (render_try eng w base_url stamp payload path).1 = 200%Z \/
  http_status (render_try eng w base_url stamp payload path).1 = 500%Z.
Proof.
  unfold render_try, render_failed.
  destruct (eng_open eng path) as [vi|msg]; [|right; reflexivity].
  destruct (resolve_trim payload (vi_duration vi)) as [s e].
  destruct (transform_chain eng _ (vi_duration vi) payload) as [subclip|msg];
    [|right; reflexivity].
  destruct (eng_write eng subclip (out_path_of stamp)) as [|msg partial];
    [|right; reflexivity].
  destruct (create_document _ _ _). left. reflexivity.
Qed.

(** X15: an asset that has just been uploaded can be rendered from: when
    the identifier returned by the upload is not already the identifier of
    a stored asset, a render request naming the upload's project and that
    identifier finds the stored record and the saved file, and is never
    answered 404. *)
Theorem uploaded_asset_is_found_by_render (VideoFileClip : option engine)
    (eng : engine) (w : world) (base_url stamp pid : string) (file : UploadFile)
    (resp : gmap string value) (w' : world) (aid : string)
    (base_url' stamp' : string) (p : RenderRequest) :
  upload_asset VideoFileClip w base_url stamp pid file = (Ok resp, w') ->
  resp !! "id" = Some (VStr aid) ->
  (forall d, In d (collection (w_db w) "asset") -> doc_id d <> aid) ->
  exists rec,
    fetch_asset (w_db w') (asset_req pid aid p) = Some rec /\
    doc_id rec = aid /\
    source_path_of w' rec = Some (save_path_of stamp file) /\
    http_status (render_video (Some eng) w' base_url' stamp' (asset_req pid aid p)).1
    <> 404%Z.
Proof.
  intros Hup Hid Hfresh.
  apply upload_asset_ok_shape in Hup as (ct & doc & _ & _ & Hdoc & -> & ->).
  rewrite lookup_insert_eq in Hid.
  assert (Hid' : (create_document (w_db w) "asset" doc).1 = aid) by congruence.
  clear Hid.
  set (rec := Document aid doc).
  assert (Hfetch : fetch_asset (create_document (w_db w) "asset" doc).2
                     (asset_req pid aid p) = Some rec).
  { rewrite fetch_asset_find. cbn [asset_id project_id asset_req].
    rewrite collection_create_same, Hid', List.filter_app, find_none_app.
    - cbn [List.filter]. fold rec.
      assert (Hp : in_project pid rec = true)
        by (apply in_project_spec; subst doc; apply asset_doc_project).
      rewrite Hp. cbn [List.find]. unfold has_id; cbn [doc_id rec].
      rewrite String.eqb_refl. reflexivity.
    - intros d Hd. apply List.filter_In in Hd as [Hd _].
      unfold has_id. apply String.eqb_neq. exact (Hfresh d Hd). }
  assert (Hsrc : source_path_of
                   {| w_db := (create_document (w_db w) "asset" doc).2;
                      w_fs := {[save_path_of stamp file]} ∪ w_fs w |} rec
                 = Some (save_path_of stamp file)).
  { unfold source_path_of; cbn [doc_fields rec w_fs].
    subst doc. rewrite asset_doc_path.
    rewrite bool_decide_eq_true_2 by set_solver. reflexivity. }
  exists rec. split; [exact Hfetch|]. split; [reflexivity|]. split; [exact Hsrc|].
  unfold render_video. cbn [w_db]. rewrite Hfetch, Hsrc.
  destruct (render_try_status eng
              {| w_db := (create_document (w_db w) "asset" doc).2;
                 w_fs := {[save_path_of stamp file]} ∪ w_fs w |}
              base_url' stamp' (asset_req pid aid p) (save_path_of stamp file))
    as [-> | ->]; discriminate.
Qed.

Lemma uploaded_asset_is_found_by_render_witness :
  exists resp w' aid,
    upload_asset (Some Fixtures.lenient_engine) Fixtures.w_empty Fixtures.base
      Fixtures.stamp1 "p1" Fixtures.video_file = (Ok resp, w') /\
    resp !! "id" = Some (VStr aid) /\
    (forall d, In d (collection (w_db Fixtures.w_empty) "asset") -> doc_id d <> aid) /\
    http_status
      (render_video (Some Fixtures.lenient_engine) w' Fixtures.base "20240102030406000000"
         (asset_req "p1" aid Fixtures.scenario_req)).1 <> 404%Z.
Proof.
  assert (Hrun : exists resp w',
             upload_asset (Some Fixtures.lenient_engine) Fixtures.w_empty Fixtures.base
               Fixtures.stamp1 "p1" Fixtures.video_file = (Ok resp, w') /\
             resp !! "id" = Some (VStr (gen_id 0))).
  { do 2 eexists. split.
    - apply (upload_asset_accepted (Some Fixtures.lenient_engine) Fixtures.w_empty
               Fixtures.base Fixtures.stamp1 "p1" Fixtures.video_file "video/mp4");
        [reflexivity | vm_compute; discriminate].
    - cbv zeta. apply lookup_insert_eq. }
  destruct Hrun as (resp & w' & Hrun & Hid).
  assert (Hfresh : forall d, In d (collection (w_db Fixtures.w_empty) "asset") ->
                             doc_id d <> gen_id 0) by (intros d []).
  exists resp, w', (gen_id 0). split; [exact Hrun|]. split; [exact Hid|].
  split; [exact Hfresh|].
  destruct (uploaded_asset_is_found_by_render (Some Fixtures.lenient_engine)
              Fixtures.lenient_engine Fixtures.w_empty Fixtures.base Fixtures.stamp1
              "p1" Fixtures.video_file resp w' (gen_id 0) Fixtures.base
              "20240102030406000000" Fixtures.scenario_req Hrun Hid Hfresh)
    as (rec & _ & _ & _ & Hst).
  exact Hst.
Defined.

Lemma list_assets_in (w : world) (pid : string) (a : gmap string value) :
  In a (list_assets w pid) <->
  exists d, In d (collection (w_db w) "asset") /\
            doc_fields d !! "project_id" = Some (VStr pid) /\
            a = with_id d.
Proof.
  unfold list_assets. rewrite fallback_query_is_project_query, in_map_iff. split.
  - intros (d & <- & Hd). apply List.filter_In in Hd as [Hin Hp].
    exists d. split; [exact Hin|]. split; [apply in_project_spec, Hp | reflexivity].
  - intros (d & Hin & Hp & ->). exists d. split; [reflexivity|].
    apply List.filter_In. split; [exact Hin | apply in_project_spec, Hp].
Qed.

(** X16: listing the assets of a project returns exactly the stored
    assets whose project_id is that project, each with its identifier
    under "id" and its other fields as stored, the server path included;
    assets of other projects and records without a project_id never
    appear. *)
Theorem list_assets_is_project_scoped (w : world) (pid : string)
    (a : gmap string value) :
  In a (list_assets w pid) <->
  exists d, In d (collection (w_db w) "asset") /\
            doc_fields d !! "project_id" = Some (VStr pid) /\
            a !! "id" = Some (VStr (doc_id d)) /\
            a !! "project_id" = Some (VStr pid) /\
            a !! "path" = doc_fields d !! "path" /\
            a = with_id d.
Proof.
  rewrite list_assets_in. split.
  - intros (d & Hin & Hp & ->). exists d.
    split; [exact Hin|]. split; [exact Hp|]. unfold with_id.
    split; [apply lookup_insert_eq|].
    split; [rewrite lookup_insert_ne by discriminate; exact Hp|].
    split; [rewrite lookup_insert_ne by discriminate; reflexivity | reflexivity].
  - intros (d & Hin & Hp & _ & _ & _ & ->). exists d. tauto.
Qed.

Lemma list_assets_is_project_scoped_witness :
  In (with_id Fixtures.asset1) (list_assets Fixtures.w1 "p1") /\
  (exists d, In d (collection (w_db Fixtures.w1) "asset") /\
             doc_fields d !! "project_id" = Some (VStr "p1") /\
             with_id Fixtures.asset1 !! "id" = Some (VStr (doc_id d)) /\
             with_id Fixtures.asset1 !! "project_id" = Some (VStr "p1") /\
             with_id Fixtures.asset1 !! "path" = doc_fields d !! "path" /\
             with_id Fixtures.asset1 = with_id d).
Proof.
  assert (H : In (with_id Fixtures.asset1) (list_assets Fixtures.w1 "p1"))
    by (left; reflexivity).
  split; [exact H|].
  exact (proj1 (list_assets_is_project_scoped Fixtures.w1 "p1" _) H).
Defined.

(** X17: an accepted upload shows up in the listing of its project as one
    new entry at the end, equal to the answer of the upload with the server
    path added back, and changes the listing of no other project. *)
Theorem upload_then_list_assets (VideoFileClip : option engine) (w : world)
    (base_url stamp pid : string) (file : UploadFile)
    (resp : gmap string value) (w' : world) :
  upload_asset VideoFileClip w base_url stamp pid file = (Ok resp, w') ->
  list_assets w' pid
  = (list_assets w pid
     ++ [<["path" := VStr (save_path_of stamp file)]> resp])%list /\
  (forall other, other <> pid -> list_assets w' other = list_assets w other).
Proof.
  intros Hup.
  apply upload_asset_ok_shape in Hup as (ct & doc & _ & _ & Hdoc & -> & ->).
  set (rec := Document (create_document (w_db w) "asset" doc).1 doc).
  assert (Hpid : doc_fields rec !! "project_id" = Some (VStr pid))
    by (subst rec doc; apply asset_doc_project).
  split.
  - unfold list_assets. cbn [w_db].
    rewrite !fallback_query_is_project_query, collection_create_same.
    fold rec. rewrite List.filter_app, List.map_app. cbn [List.filter].
    rewrite (proj2 (in_project_spec pid rec) Hpid). cbn [List.map].
    f_equal. f_equal. unfold with_id; cbn [doc_id doc_fields rec].
    rewrite <- delete_insert_ne by discriminate.
    rewrite insert_delete_eq. symmetry. apply insert_id.
    rewrite lookup_insert_ne by discriminate. subst doc. apply asset_doc_path.
  - intros other Hne. unfold list_assets. cbn [w_db].
    rewrite !fallback_query_is_project_query, collection_create_same.
    fold rec. rewrite List.filter_app. cbn [List.filter].
    assert (Hno : in_project other rec = false).
    { destruct (in_project other rec) eqn:Hp; [|reflexivity].
      apply in_project_spec in Hp. rewrite Hpid in Hp. congruence. }
    rewrite Hno, app_nil_r. reflexivity.
Qed.

Lemma upload_then_list_assets_witness :
  exists resp w',
    upload_asset (Some Fixtures.lenient_engine) Fixtures.w1 Fixtures.base
      Fixtures.stamp1 "p1" Fixtures.video_file = (Ok resp, w') /\
    list_assets w' "p1"
    = (list_assets Fixtures.w1 "p1"
       ++ [<["path" := VStr (save_path_of Fixtures.stamp1 Fixtures.video_file)]> resp])%list /\
    list_assets w' "p2" = list_assets Fixtures.w1 "p2".
Proof.
  assert (Hrun : exists resp w',
             upload_asset (Some Fixtures.lenient_engine) Fixtures.w1 Fixtures.base
               Fixtures.stamp1 "p1" Fixtures.video_file = (Ok resp, w')).
  { do 2 eexists.
    apply (upload_asset_accepted (Some Fixtures.lenient_engine) Fixtures.w1
             Fixtures.base Fixtures.stamp1 "p1" Fixtures.video_file "video/mp4");
      [reflexivity | vm_compute; discriminate]. }
  destruct Hrun as (resp & w' & Hrun).
  exists resp, w'. split; [exact Hrun|].
  destruct (upload_then_list_assets _ _ _ _ _ _ _ _ Hrun) as [Hsame Hother].
  split; [exact Hsame|]. apply Hother. discriminate.
Defined.

Lemma render_video_other_collections (VideoFileClip : option engine) (w : world)
    (base_url stamp : string) (payload : RenderRequest) (name : string) :
  name <> "render" ->
  collection (w_db (render_video VideoFileClip w base_url stamp payload).2) name
  = collection (w_db w) name.
Proof.
  intros Hne. unfold_render.
  destruct VideoFileClip as [eng|]; [|reflexivity].
  destruct (fetch_asset (w_db w) payload) as [d|]; [|reflexivity].
  destruct (source_path_of w d) as [path|]; [|reflexivity].
  destruct (eng_open eng path) as [vi|msg]; [|reflexivity].
  destruct (resolve_trim payload (vi_duration vi)) as [s e].
  destruct (transform_chain eng _ (vi_duration vi) payload) as [subclip|msg];
    [|reflexivity].
  destruct (eng_write eng subclip (out_path_of stamp)) as [|msg partial];
    [|reflexivity].
  set (doc := render_doc_of payload s e _).
  destruct (create_document (w_db w) "render" doc) as [rid db'] eqn:Hc.
  cbn [snd w_db].
  replace db' with (create_document (w_db w) "render" doc).2 by (rewrite Hc; reflexivity).
  apply collection_create_other. exact Hne.
Qed.

(** X18: a render, successful or not, changes neither the listing of any
    project's assets nor the listing of projects. *)
Theorem render_leaves_listings (VideoFileClip : option engine) (w : world)
    (base_url stamp : string) (payload : RenderRequest) (pid : string) :
  list_assets (render_video VideoFileClip w base_url stamp payload).2 pid
  = list_assets w pid /\
  list_projects (render_video VideoFileClip w base_url stamp payload).2
  = list_projects w.
Proof.
  unfold list_assets, list_projects, get_documents.
  rewrite !render_video_other_collections by discriminate.
  split; reflexivity.
Qed.

(** ** Projects *)

Lemma filter_no_condition (l : list document) : List.filter (matches []) l = l.
Proof.
  induction l as [|d l IH]; [reflexivity|].
  cbn [List.filter matches forallb]. rewrite <- IH at 2. reflexivity.
Qed.

(** X19: creating a project appends exactly one entry to the listing of
    projects, equal to the answer of the creation (identifier, title and
    description), and touches neither the files nor any asset listing. *)
Theorem create_project_then_list (w : world) (title : string)
    (description : option string) (pid : string) :
  let r := create_project w title description in
  list_projects r.2 = (list_projects w ++ [r.1])%list /\
  r.1 !! "title" = Some (VStr title) /\
  r.1 !! "description" = Some (opt_str description) /\
  w_fs r.2 = w_fs w /\
  list_assets r.2 pid = list_assets w pid.
Proof.
  cbv zeta. unfold create_project.
  set (payload := <["title" := VStr title]> (<["description" := opt_str description]> ∅)).
  destruct (create_document (w_db w) "project" payload) as [id db'] eqn:Hc.
  assert (Hdb : db' = (create_document (w_db w) "project" payload).2)
    by (rewrite Hc; reflexivity).
  assert (Hid : id = (create_document (w_db w) "project" payload).1)
    by (rewrite Hc; reflexivity).
  cbn [fst snd w_db w_fs].
  split; [|split; [reflexivity|split; [reflexivity|split; [reflexivity|]]]].
  - unfold list_projects, get_documents. cbn [w_db].
    rewrite Hdb, collection_create_same, !filter_no_condition, List.map_app.
    rewrite <- Hid. reflexivity.
  - unfold list_assets, get_documents. cbn [w_db].
    rewrite Hdb, collection_create_other by discriminate. reflexivity.
Qed.

(** ** Base URL *)

Lemma rstrip_slash_app_slash (s : string) :
  rstrip_slash (s ++ "/") = rstrip_slash s.
Proof.
  induction s as [|a s IH]; [reflexivity|].
  change (String a s ++ "/") with (String a (s ++ "/")).
  cbn [rstrip_slash]. rewrite IH. reflexivity.
Qed.

(** X20: a trailing slash on the base URL changes nothing: render and
    upload give the same answer, the same URLs and the same state for
    [base_url] and for [base_url] followed by "/". *)
Theorem base_url_trailing_slash_is_ignored (VideoFileClip : option engine)
    (w : world) (base_url stamp pid : string) (payload : RenderRequest)
    (file : UploadFile) :
  render_video VideoFileClip w (base_url ++ "/") stamp payload
  = render_video VideoFileClip w base_url stamp payload /\
  upload_asset VideoFileClip w (base_url ++ "/") stamp pid file
  = upload_asset VideoFileClip w base_url stamp pid file.
Proof.
  unfold render_video, render_try, upload_asset.
  rewrite !rstrip_slash_app_slash. split; reflexivity.
Qed.

(** ** Health check *)

Lemma str_take_length (n : nat) (s : string) : char_count (str_take n s) <= n.
Proof.
  revert n. induction s as [|a s IH]; intros n; cbn [str_take char_count]; [lia|].
  destruct (is_continuation a) eqn:Ha.
  - cbn [char_count]. rewrite Ha. apply IH.
  - destruct n as [|n]; cbn [char_count]; [lia|]. rewrite Ha.
    specialize (IH n). lia.
Qed.

Lemma str_take_short (n : nat) (s : string) :
  char_count s <= n -> str_take n s = s.
Proof.
  revert n. induction s as [|a s IH]; intros n; cbn [str_take char_count];
    [reflexivity|].
  destruct (is_continuation a).
  - intros H. rewrite (IH n H). reflexivity.
  - intros H. destruct n as [|n]; [lia|]. rewrite (IH n) by lia. reflexivity.
Qed.

(** X21: the health check lists at most ten collections, the first ten in
    the order the database reports them, and lists none when there is no
    database handle or when listing raises. *)
Theorem test_database_lists_at_most_ten (db : option (outcome (list string)))
    (DATABASE_URL DATABASE_NAME : option string) :
  let r := test_database db DATABASE_URL DATABASE_NAME in
  length (h_collections r) <= 10 /\
  match db with
  | Some (Done names) =>
      h_collections r = take 10 names /\
      (length names <= 10 -> h_collections r = names)
  | _ => h_collections r = []
  end.
Proof.
  cbv zeta. unfold test_database.
  destruct db as [[names|e]|]; cbn [h_collections length]; try (split; [lia | reflexivity]).
  split; [rewrite length_take; lia|]. split; [reflexivity|].
  intros H. apply take_ge. exact H.
Qed.

(** X22: the health check reports "Connected" exactly when there is a
    database handle, also when listing its collections raises; in that case
    the database line carries the first 80 characters of the exception
    text (characters, not bytes), and the whole text when it has no more
    than 80 characters. *)
Theorem test_database_connection_report (db : option (outcome (list string)))
    (DATABASE_URL DATABASE_NAME : option string) :
  let r := test_database db DATABASE_URL DATABASE_NAME in
  (h_connection_status r = "Connected" <-> db <> None) /\
  (forall e, db = Some (Raised e) ->
     exists shown,
       h_database r = "⚠️ Connected but Error: " ++ shown /\
       shown = str_take 80 e /\
       char_count shown <= 80 /\
       (char_count e <= 80 -> shown = e)).
Proof.
  cbv zeta. unfold test_database. split.
  - destruct db as [[names|e]|]; cbn [h_connection_status]; split;
      congruence || discriminate.
  - intros e ->. cbn [h_database]. eexists. split; [reflexivity|].
    split; [reflexivity|]. split; [apply str_take_length | apply str_take_short].
Qed.

(** X23: an environment variable that is unset or set to the empty string
    is reported "Not Set", any other value "Set", and the two variables are
    reported independently of the database handle. *)
Theorem test_database_env_report (db : option (outcome (list string)))
    (DATABASE_URL DATABASE_NAME : option string) :
  let r := test_database db DATABASE_URL DATABASE_NAME in
  (h_database_url r = "✅ Set" <->
   exists s, DATABASE_URL = Some s /\ s <> "") /\
  (h_database_name r = "✅ Set" <->
   exists s, DATABASE_NAME = Some s /\ s <> "") /\
  (h_database_url r = "✅ Set" \/ h_database_url r = "❌ Not Set") /\
  (h_database_name r = "✅ Set" \/ h_database_name r = "❌ Not Set").
Proof.
  cbv zeta.
  assert (Henv : forall v, env_set v = true <-> exists s, v = Some s /\ s <> "").
  { intros [s|]; cbn.
    - rewrite negb_true_iff, String.eqb_neq. split.
      + intros H. exists s. split; [reflexivity | exact H].
      + intros (s' & [= <-] & H). exact H.
    - split; [discriminate | intros (s & H & _); discriminate H]. }
  rewrite <- !Henv. unfold test_database.
  destruct db as [[names|e]|]; cbn [h_database_url h_database_name];
    destruct (env_set DATABASE_URL), (env_set DATABASE_NAME);
    repeat split; try discriminate; try tauto; auto.
Qed.

Lemma test_database_lists_at_most_ten_witness :
  length ["asset"; "project"] <= 10 /\
  h_collections (test_database (Some (Done ["asset"; "project"])) None None)
  = ["asset"; "project"].
Proof.
  assert (H : length ["asset"; "project"] <= 10) by (simpl; lia).
  split; [exact H|].
  exact (proj2 (proj2 (test_database_lists_at_most_ten
                         (Some (Done ["asset"; "project"])) None None)) H).
Defined.

Lemma test_database_connection_report_witness :
  Some (Raised "délai dépassé") <> (None : option (outcome (list string))) /\
  h_connection_status (test_database (Some (Raised "délai dépassé")) None None)
  = "Connected" /\
  char_count "délai dépassé" <= 80 /\
  exists shown,
    h_database (test_database (Some (Raised "délai dépassé")) None None)
    = "⚠️ Connected but Error: " ++ shown /\
    shown = "délai dépassé".
Proof.
  assert (H : Some (Raised "délai dépassé") <> (None : option (outcome (list string))))
    by discriminate.
  assert (Hlen : char_count "délai dépassé" <= 80) by (vm_compute; lia).
  destruct (test_database_connection_report (Some (Raised "délai dépassé")) None None)
    as [Hconn Hmsg].
  split; [exact H|]. split; [exact (proj2 Hconn H)|]. split; [exact Hlen|].
  destruct (Hmsg _ eq_refl) as (shown & Hdb & _ & _ & Hwhole).
  exists shown. split; [exact Hdb | exact (Hwhole Hlen)].
Defined.

Lemma test_database_env_report_witness :
  (exists s, Some "mongodb://db" = Some s /\ s <> "") /\
  h_database_url (test_database None (Some "mongodb://db") (Some "")) = "✅ Set" /\
  (h_database_name (test_database None (Some "mongodb://db") (Some "")) = "✅ Set"
   \/ h_database_name (test_database None (Some "mongodb://db") (Some ""))
      = "❌ Not Set").
Proof.
  assert (H : exists s, Some "mongodb://db" = Some s /\ s <> "")
    by (eexists; split; [reflexivity | discriminate]).
  destruct (test_database_env_report None (Some "mongodb://db") (Some ""))
    as (Hurl & _ & _ & Hname).
  split; [exact H|]. split; [exact (proj2 Hurl H) | exact Hname].
Defined.
